(** * User Service and Post Service: handlers and the existence check

    A shallow embedding of the two Go services of the repository:

    - the User Service ([createUser], [deleteUser], [checkUserExists]),
      module [UserService];
    - the Post Service ([getPostsByUserID], [createPost], [deletePost] and
      its client-side [checkUserExists]), module [PostService].

    The MongoDB collections are finite maps keyed by [_id]; the network
    between the services and the faults of the store are inputs of the
    handlers.  Every handler returns its HTTP response, the collection it
    leaves behind and the list of collection operations it issued. *)

From Stdlib Require Import String Ascii NArith Bool.
From stdpp Require Import gmap strings list fin_maps.

Local Open Scope string_scope.
#[local] Set Warnings "-register-all".

(** ** Go strings and errors *)

(** A Go string is a sequence of bytes; [ascii] is the byte. *)
Definition byte_val (c : ascii) : N := N_of_ascii c.

(** Go [error] values, by the place that creates them. *)
Inductive error : Type :=
| ErrInvalidHex                       (* primitive.ErrInvalidHex *)
| InvalidByteError (b : ascii)        (* encoding/hex *)
| ErrLength                           (* encoding/hex: odd length *)
| StoreError (msg : string)           (* any error of the mongo driver *)
| DuplicateKey                        (* write error E11000 on [_id] *)
| TransportError (msg : string)       (* net/http: refused, DNS, reset ... *)
| DeadlineExceeded                    (* net/http: Client.Timeout exceeded *)
| SyntaxError (msg : string)          (* encoding/json: not a JSON value *)
| UnmarshalTypeError (field : string) (* encoding/json: wrong kind of value *)
| BindError (msg : string).           (* gin: ShouldBindJSON failed *)

(** ** Hexadecimal, as encoding/hex does it *)

Definition hextable : string := "0123456789abcdef".

Definition hexdigit (n : N) : ascii :=
  match String.get (N.to_nat n) hextable with
  | Some c => c
  | None => "0"%char
  end.

(** [reverseHexTable]: both cases of the letters are accepted. *)
Definition fromHexChar (c : ascii) : option N :=
  let n := byte_val c in
  if (48 <=? n)%N && (n <=? 57)%N then Some (n - 48)%N
  else if (97 <=? n)%N && (n <=? 102)%N then Some (n - 87)%N
  else if (65 <=? n)%N && (n <=? 70)%N then Some (n - 55)%N
  else None.

(** [hex.EncodeToString] *)
Fixpoint hex_Encode (src : list ascii) : string :=
  match src with
  | [] => EmptyString
  | b :: rest =>
      String (hexdigit (byte_val b / 16)) (String (hexdigit (byte_val b mod 16)) (hex_Encode rest))
  end.

(** [hex.Decode]: pairs of digits, the first invalid byte is reported.  A
    lone last character is [hex.ErrLength]; [ObjectIDFromHex] never gets
    there, its input has 24 characters. *)
Fixpoint hex_Decode (s : string) : error + list ascii :=
  match s with
  | EmptyString => inr []
  | String p EmptyString =>
      match fromHexChar p with
      | None => inl (InvalidByteError p)
      | Some _ => inl ErrLength
      end
  | String p (String q rest) =>
      match fromHexChar p with
      | None => inl (InvalidByteError p)
      | Some a =>
          match fromHexChar q with
          | None => inl (InvalidByteError q)
          | Some b =>
              match hex_Decode rest with
              | inl e => inl e
              | inr bs => inr (ascii_of_N (a * 16 + b) :: bs)
              end
          end
      end
  end.

(** Every byte of the string is a hexadecimal digit. *)
Fixpoint all_hex (s : string) : bool :=
  match s with
  | EmptyString => true
  | String c rest =>
      match fromHexChar c with
      | Some _ => all_hex rest
      | None => false
      end
  end.

(** ** primitive.ObjectID: [12]byte *)

Definition ObjectID : Type :=
  (ascii * ascii * ascii * ascii * ascii * ascii *
   ascii * ascii * ascii * ascii * ascii * ascii)%type.

Definition zero_byte : ascii := ascii_of_N 0.

Definition NilObjectID : ObjectID :=
  (zero_byte, zero_byte, zero_byte, zero_byte, zero_byte, zero_byte,
   zero_byte, zero_byte, zero_byte, zero_byte, zero_byte, zero_byte).

Definition oid_bytes (o : ObjectID) : list ascii :=
  let '(b0, b1, b2, b3, b4, b5, b6, b7, b8, b9, b10, b11) := o in
  [b0; b1; b2; b3; b4; b5; b6; b7; b8; b9; b10; b11].

Definition oid_of_bytes (l : list ascii) : option ObjectID :=
  match l with
  | [b0; b1; b2; b3; b4; b5; b6; b7; b8; b9; b10; b11] =>
      Some (b0, b1, b2, b3, b4, b5, b6, b7, b8, b9, b10, b11)
  | _ => None
  end.

(** [ObjectID.Hex] *)
Definition Hex (o : ObjectID) : string := hex_Encode (oid_bytes o).

(** [ObjectID.IsZero] *)
Definition IsZero (o : ObjectID) : bool := bool_decide (o = NilObjectID).

(** [primitive.ObjectIDFromHex] *)
Definition ObjectIDFromHex (s : string) : error + ObjectID :=
  if negb (String.length s =? 24)%nat then inl ErrInvalidHex
  else
    match hex_Decode s with
    | inl e => inl e
    | inr bs =>
        match oid_of_bytes bs with
        | Some o => inr o
        | None => inl ErrInvalidHex
        end
    end.

(** ** The text of an error ([err.Error()]) *)

Definition upperhex : string := "0123456789ABCDEF".

Definition upperdigit (n : N) : ascii :=
  match String.get (N.to_nat n) upperhex with
  | Some c => c
  | None => "0"%char
  end.

(** [strconv.IsPrint] on a rune below 256. *)
Definition IsPrint (n : N) : bool :=
  ((32 <=? n)%N && (n <=? 126)%N) || ((161 <=? n)%N && (n <=? 255)%N && negb (n =? 173)%N).

(** The UTF-8 encoding of a rune below 256. *)
Definition utf8 (n : N) : string :=
  if (n <? 128)%N then String (ascii_of_N n) EmptyString
  else String (ascii_of_N (192 + n / 64)) (String (ascii_of_N (128 + n mod 64)) EmptyString).

(** The verb [%#U] applied to [rune(b)]. *)
Definition sharpU (b : ascii) : string :=
  let n := byte_val b in
  "U+00" ++ String (upperdigit (n / 16)) (String (upperdigit (n mod 16)) EmptyString)
  ++ (if IsPrint n then " '" ++ utf8 n ++ "'" else "").

Definition Error (e : error) : string :=
  match e with
  | ErrInvalidHex => "the provided hex string is not a valid ObjectID"
  | InvalidByteError b => "encoding/hex: invalid byte: " ++ sharpU b
  | ErrLength => "encoding/hex: odd length hex string"
  | StoreError msg => msg
  | DuplicateKey => "E11000 duplicate key error"
  | TransportError msg => msg
  | DeadlineExceeded => "context deadline exceeded (Client.Timeout exceeded while awaiting headers)"
  | SyntaxError msg => msg
  | UnmarshalTypeError field => "json: cannot unmarshal into Go struct field " ++ field
  | BindError msg => msg
  end.

(** ** JSON values and HTTP responses *)

Inductive json : Type :=
| JNull
| JBool (b : bool)
| JNumber (literal : string)
| JString (s : string)
| JArray (items : list json)
| JObject (members : list (string * json)).

(** What a response carries, as a JSON decoder sees it: bytes that begin
    with the JSON value [v], as what [c.JSON] writes does (a decoder reads
    that first value and leaves what follows), or bytes that do not begin
    with a JSON value (an HTML page, nothing at all). *)
Inductive Body : Type :=
| JSONBody (v : json)
| OtherBody (raw : string).

Record Response : Type := { status : nat; body : Body }.

(** [c.JSON(code, gin.H{...})]: encoding/json writes the keys of a map in
    sorted order. *)
Definition H_error (msg : string) : Body := JSONBody (JObject [("error", JString msg)]).
Definition H_message (msg : string) : Body := JSONBody (JObject [("message", JString msg)]).
Definition H_exists (id : string) (b : bool) : Body :=
  JSONBody (JObject [("exists", JBool b); ("id", JString id)]).

(** ** net/http: one GET, as the client sees it *)

Inductive RoundTripResult : Type :=
| Failed (e : error)
| Answered (r : Response).

(** What the network does with a request: after [elapsed] milliseconds the
    exchange has failed or the whole response has arrived. *)
Record RoundTrip : Type := { elapsed : N; result : RoundTripResult }.

Definition Transport : Type := string -> RoundTrip.

(** [http.Client]; a [Timeout] of zero means no timeout. *)
Record Client : Type := { Timeout : N }.

(** [http.DefaultClient = &Client{}] *)
Definition DefaultClient : Client := {| Timeout := 0 |}.

Definition Client_Get (c : Client) (net : Transport) (url : string) : RoundTrip :=
  let rt := net url in
  if (Timeout c =? 0)%N then rt
  else if (Timeout c <? elapsed rt)%N
       then {| elapsed := Timeout c; result := Failed DeadlineExceeded |}
       else rt.

(** [http.Get(url)] is [DefaultClient.Get(url)]. *)
Definition http_Get (net : Transport) (url : string) : RoundTrip :=
  Client_Get DefaultClient net url.

(** ** The collections *)

(** A document with its [_id] field (tagged [bson:"_id,omitempty"]). *)
Class Document (D : Type) : Type := {
  doc_id : D -> ObjectID;
  with_id : ObjectID -> D -> D
}.

(** The operations a handler issues on its collection, in order. *)
Inductive StoreOp : Type :=
| OpInsertOne
| OpDeleteOne (id : ObjectID)
| OpCountDocuments (id : ObjectID)
| OpFind (user_id : string)
| OpAll.

Section Collection.
Context {D : Type} `{Document D}.

(** [InsertOne]: a zero [_id] is left out of the document (omitempty)
    and the driver generates one, [gen]; [_id] is unique in a collection.
    [fault] is the error of the store, if this call meets one; a failed
    call leaves the collection as it was. *)
Definition InsertOne (fault : option error) (gen : ObjectID) (doc : D)
    (c : gmap ObjectID D) : (error + ObjectID) * gmap ObjectID D :=
  match fault with
  | Some e => (inl e, c)
  | None =>
      let id := if IsZero (doc_id doc) then gen else doc_id doc in
      match c !! id with
      | Some _ => (inl DuplicateKey, c)
      | None => (inr id, <[id := with_id id doc]> c)
      end
  end.

(** [DeleteOne] with the filter [bson.M{"_id": id}]; the number is
    [DeletedCount]. *)
Definition DeleteOne (fault : option error) (id : ObjectID)
    (c : gmap ObjectID D) : (error + N) * gmap ObjectID D :=
  match fault with
  | Some e => (inl e, c)
  | None =>
      match c !! id with
      | Some _ => (inr 1%N, delete id c)
      | None => (inr 0%N, c)
      end
  end.

(** [CountDocuments] with the filter [bson.M{"_id": id}]. *)
Definition CountDocuments (fault : option error) (id : ObjectID)
    (c : gmap ObjectID D) : error + N :=
  match fault with
  | Some e => inl e
  | None => inr (match c !! id with Some _ => 1%N | None => 0%N end)
  end.
End Collection.

(** What a handler leaves behind. *)
Record Outcome (D : Type) : Type := {
  resp : Response;
  coll : gmap ObjectID D;
  ops : list StoreOp
}.
Arguments resp {D} _.
Arguments coll {D} _.
Arguments ops {D} _.

(** ** The User Service *)

Module UserService.

Record User : Type := { ID : ObjectID; Name : string }.

#[global] Instance User_Document : Document User := {
  doc_id := ID;
  with_id := fun id u => {| ID := id; Name := Name u |}
}.

(** [json.Marshal] of a [User]: the array [ID] is never empty, so
    omitempty keeps it; an ObjectID is written as its hex string. *)
Definition User_json (u : User) : json :=
  JObject [("id", JString (Hex (ID u))); ("name", JString (Name u))].

(** What lies outside one request: the identifier that
    [primitive.NewObjectID()] returns, the error the store answers with
    (if any), and the identifier the driver would generate. *)
Record Env : Type := {
  NewObjectID : ObjectID;
  fault : option error;
  driver_id : ObjectID
}.

(** [bound] is what [c.ShouldBindJSON(&newUser)] gives. *)
Definition createUser (env : Env) (bound : error + User)
    (users : gmap ObjectID User) : Outcome User :=
  match bound with
  | inl err =>
      {| resp := {| status := 400; body := H_error (Error err) |};
         coll := users; ops := [] |}
  | inr newUser =>
      let newUser := {| ID := NewObjectID env; Name := Name newUser |} in
      match InsertOne (fault env) (driver_id env) newUser users with
      | (inl err, users') =>
          {| resp := {| status := 500; body := H_error (Error err) |};
             coll := users'; ops := [OpInsertOne] |}
      | (inr _, users') =>
          {| resp := {| status := 201; body := JSONBody (User_json newUser) |};
             coll := users'; ops := [OpInsertOne] |}
      end
  end.

Definition deleteUser (env : Env) (idParam : string)
    (users : gmap ObjectID User) : Outcome User :=
  match ObjectIDFromHex idParam with
  | inl err =>
      {| resp := {| status := 400; body := H_error (Error err) |};
         coll := users; ops := [] |}
  | inr objID =>
      match DeleteOne (fault env) objID users with
      | (inl err, users') =>
          {| resp := {| status := 500; body := H_error (Error err) |};
             coll := users'; ops := [OpDeleteOne objID] |}
      | (inr DeletedCount, users') =>
          if (DeletedCount =? 0)%N
          then {| resp := {| status := 404; body := H_error "user not found" |};
                  coll := users'; ops := [OpDeleteOne objID] |}
          else {| resp := {| status := 200; body := H_message "deleted successfully" |};
                  coll := users'; ops := [OpDeleteOne objID] |}
      end
  end.

Definition checkUserExists (env : Env) (idParam : string)
    (users : gmap ObjectID User) : Outcome User :=
  match ObjectIDFromHex idParam with
  | inl err =>
      {| resp := {| status := 400; body := H_error (Error err) |};
         coll := users; ops := [] |}
  | inr objID =>
      match CountDocuments (fault env) objID users with
      | inl err =>
          {| resp := {| status := 500; body := H_error (Error err) |};
             coll := users; ops := [OpCountDocuments objID] |}
      | inr count =>
          {| resp := {| status := 200; body := H_exists idParam (0 <? count)%N |};
             coll := users; ops := [OpCountDocuments objID] |}
      end
  end.

(** [json.Marshal] of a [[]User]: the nil slice is [null]. *)
Definition Users_json (users : list User) : json :=
  match users with
  | [] => JNull
  | _ => JArray (map User_json users)
  end.

(** [userCollection.Find(ctx, bson.M{})]: the cursor over every document. *)
Definition Find (fault : option error) (c : gmap ObjectID User) : error + list User :=
  match fault with
  | Some e => inl e
  | None => inr (map_to_list c).*2
  end.

(** [cursor.All(ctx, &users)] *)
Definition All (fault : option error) (cursor : list User) : error + list User :=
  match fault with
  | Some e => inl e
  | None => inr cursor
  end.

(** The handler reads and never writes: it gives its response only.
    [cursor_fault] is the error met while reading the cursor, if any. *)
Definition getAllUsers (env : Env) (cursor_fault : option error)
    (users : gmap ObjectID User) : Response :=
  match Find (fault env) users with
  | inl err => {| status := 500; body := H_error (Error err) |}
  | inr cursor =>
      match All cursor_fault cursor with
      | inl err => {| status := 500; body := H_error (Error err) |}
      | inr found => {| status := 200; body := JSONBody (Users_json found) |}
      end
  end.

End UserService.

(** ** The Post Service *)

Module PostService.

Record Post : Type := {
  ID : ObjectID;
  UserID : string;
  Title : string;
  Content : string
}.

#[global] Instance Post_Document : Document Post := {
  doc_id := ID;
  with_id := fun id p =>
    {| ID := id; UserID := UserID p; Title := Title p; Content := Content p |}
}.

Definition Post_json (p : Post) : json :=
  JObject [("id", JString (Hex (ID p))); ("user_id", JString (UserID p));
           ("title", JString (Title p)); ("content", JString (Content p))].

(** [json.Marshal] of a [[]Post]: the nil slice is [null]. *)
Definition Posts_json (posts : list Post) : json :=
  match posts with
  | [] => JNull
  | _ => JArray (map Post_json posts)
  end.

(** What lies outside one request: the value of USER_SERVICE_URL, the
    network towards the User Service, the errors the store answers with
    on the collection call and on reading the cursor (if any), and the
    identifier the driver generates for a document without [_id].  The
    handlers create their context of five seconds before the existence
    check and hand it to the store calls only: a store call that comes
    after the five seconds fails, which is a [fault] here. *)
Record Env : Type := {
  USER_SERVICE_URL : string;
  net : Transport;
  fault : option error;
  cursor_fault : option error;
  driver_id : ObjectID
}.

(** *** The client of the existence check *)

(** The anonymous struct that [checkUserExists] decodes into. *)
Record result_t : Type := { result_ID : string; result_Exists : bool }.

Definition lower (c : ascii) : ascii :=
  let n := byte_val c in
  if (65 <=? n)%N && (n <=? 90)%N then ascii_of_N (n + 32) else c.

(** The folded form of a key: ASCII letters in lower case, and the two
    other runes whose case folding is an ASCII letter, U+017F (bytes C5 BF)
    as s and U+212A (bytes E2 84 AA) as k.  Every other byte stays. *)
Fixpoint fold_name (s : string) : string :=
  match s with
  | EmptyString => EmptyString
  | String c rest =>
      match rest with
      | EmptyString => String (lower c) EmptyString
      | String c1 rest1 =>
          if (byte_val c =? 197)%N && (byte_val c1 =? 191)%N
          then String "s"%char (fold_name rest1)
          else
            match rest1 with
            | EmptyString => String (lower c) (fold_name rest)
            | String c2 rest2 =>
                if (byte_val c =? 226)%N && (byte_val c1 =? 132)%N && (byte_val c2 =? 170)%N
                then String "k"%char (fold_name rest2)
                else String (lower c) (fold_name rest)
            end
      end
  end.

(** encoding/json finds the field of a key by its exact name, then by its
    case-folded name. *)
Definition names (key field : string) : bool :=
  bool_decide (key = field) || bool_decide (fold_name key = fold_name field).

(** The members of an object in order: a later key overwrites, [null]
    leaves the field alone, a value of the wrong kind is remembered as
    the error (the first one) and decoding goes on, an unknown key is
    skipped. *)
Fixpoint decode_members (ms : list (string * json)) (r : result_t)
    (saved : option error) : result_t * option error :=
  match ms with
  | [] => (r, saved)
  | (key, v) :: rest =>
      if names key "id" then
        match v with
        | JString s =>
            decode_members rest {| result_ID := s; result_Exists := result_Exists r |} saved
        | JNull => decode_members rest r saved
        | _ =>
            decode_members rest r
              (match saved with Some e => Some e | None => Some (UnmarshalTypeError "id") end)
        end
      else if names key "exists" then
        match v with
        | JBool b =>
            decode_members rest {| result_ID := result_ID r; result_Exists := b |} saved
        | JNull => decode_members rest r saved
        | _ =>
            decode_members rest r
              (match saved with Some e => Some e | None => Some (UnmarshalTypeError "exists") end)
        end
      else decode_members rest r saved
  end.

(** [json.NewDecoder(resp.Body).Decode(&result)] on a zero [result]: the
    first JSON value of the body is decoded, bytes after it are not read. *)
Definition Decode (b : Body) : result_t * option error :=
  let zero := {| result_ID := ""; result_Exists := false |} in
  match b with
  | OtherBody raw => (zero, Some (SyntaxError "invalid character"))
  | JSONBody JNull => (zero, None)
  | JSONBody (JObject ms) => decode_members ms zero None
  | JSONBody _ => (zero, Some (UnmarshalTypeError ""))
  end.

(** [fmt.Sprintf("%s/users/exists/%s", userServiceURL, userID)] *)
Definition exists_url (env : Env) (userID : string) : string :=
  let userServiceURL :=
    if bool_decide (USER_SERVICE_URL env = "") then "http://localhost:8080"
    else USER_SERVICE_URL env in
  userServiceURL ++ "/users/exists/" ++ userID.

Definition checkUserExists (env : Env) (userID : string) : bool * option error :=
  match result (http_Get (net env) (exists_url env userID)) with
  | Failed err => (false, Some err)
  | Answered resp =>
      let '(res, err) := Decode (body resp) in
      match err with
      | Some err => (false, Some err)
      | None => (result_Exists res, None)
      end
  end.

(** How long the call of [checkUserExists] takes, in milliseconds. *)
Definition checkUserExists_elapsed (env : Env) (userID : string) : N :=
  elapsed (http_Get (net env) (exists_url env userID)).

(** *** The handlers *)

(** [postCollection.Find(ctx, bson.M{"user_id": userID})]: the cursor
    over the matching documents. *)
Definition Find (fault : option error) (userID : string)
    (c : gmap ObjectID Post) : error + list Post :=
  match fault with
  | Some e => inl e
  | None => inr (filter (fun p => UserID p = userID) (map_to_list c).*2)
  end.

(** [cursor.All(ctx, &posts)] *)
Definition All (fault : option error) (cursor : list Post) : error + list Post :=
  match fault with
  | Some e => inl e
  | None => inr cursor
  end.

Definition getPostsByUserID (env : Env) (userID : string)
    (posts : gmap ObjectID Post) : Outcome Post :=
  let '(exists_, err) := checkUserExists env userID in
  match err with
  | Some _ =>
      {| resp := {| status := 502; body := H_error "cannot connect to user-service" |};
         coll := posts; ops := [] |}
  | None =>
      if negb exists_
      then {| resp := {| status := 404; body := H_error "user does not exist" |};
              coll := posts; ops := [] |}
      else
        match Find (fault env) userID posts with
        | inl err =>
            {| resp := {| status := 500; body := H_error (Error err) |};
               coll := posts; ops := [OpFind userID] |}
        | inr cursor =>
            match All (cursor_fault env) cursor with
            | inl _ =>
                {| resp := {| status := 500; body := H_error "cannot decode posts" |};
                   coll := posts; ops := [OpFind userID; OpAll] |}
            | inr found =>
                {| resp := {| status := 200;
                              body := JSONBody (JObject [("posts", Posts_json found);
                                                         ("user_id", JString userID)]) |};
                   coll := posts; ops := [OpFind userID; OpAll] |}
            end
        end
  end.

(** [bound] is what [c.ShouldBindJSON(&newPost)] gives. *)
Definition createPost (env : Env) (bound : error + Post)
    (posts : gmap ObjectID Post) : Outcome Post :=
  match bound with
  | inl err =>
      {| resp := {| status := 400; body := H_error (Error err) |};
         coll := posts; ops := [] |}
  | inr newPost =>
      let '(exists_, err) := checkUserExists env (UserID newPost) in
      match err with
      | Some _ =>
          {| resp := {| status := 502; body := H_error "cannot connect to user-service" |};
             coll := posts; ops := [] |}
      | None =>
          if negb exists_
          then {| resp := {| status := 404; body := H_error "user does not exist" |};
                  coll := posts; ops := [] |}
          else
            match InsertOne (fault env) (driver_id env) newPost posts with
            | (inl err, posts') =>
                {| resp := {| status := 500; body := H_error (Error err) |};
                   coll := posts'; ops := [OpInsertOne] |}
            | (inr InsertedID, posts') =>
                {| resp := {| status := 201;
                              body := JSONBody (Post_json (with_id InsertedID newPost)) |};
                   coll := posts'; ops := [OpInsertOne] |}
            end
      end
  end.

Definition deletePost (env : Env) (postID : string)
    (posts : gmap ObjectID Post) : Outcome Post :=
  match ObjectIDFromHex postID with
  | inl err =>
      {| resp := {| status := 400; body := H_error (Error err) |};
         coll := posts; ops := [] |}
  | inr objID =>
      match DeleteOne (fault env) objID posts with
      | (inl err, posts') =>
          {| resp := {| status := 500; body := H_error (Error err) |};
             coll := posts'; ops := [OpDeleteOne objID] |}
      | (inr DeletedCount, posts') =>
          if (DeletedCount =? 0)%N
          then {| resp := {| status := 404; body := H_error "post not found" |};
                  coll := posts'; ops := [OpDeleteOne objID] |}
          else {| resp := {| status := 200; body := H_message "post deleted" |};
                  coll := posts'; ops := [OpDeleteOne objID] |}
      end
  end.

End PostService.

(** ** Reading a response *)

(** The member of a JSON object with the given key, the last one when the
    key is repeated. *)
Fixpoint member (key : string) (ms : list (string * json)) : option json :=
  match ms with
  | [] => None
  | (k, v) :: rest =>
      match member key rest with
      | Some w => Some w
      | None => if bool_decide (k = key) then Some v else None
      end
  end.

(** The identifier a response body carries in its "id" member. *)
Definition returned_id (b : Body) : option string :=
  match b with
  | JSONBody (JObject ms) =>
      match member "id" ms with
      | Some (JString s) => Some s
      | _ => None
      end
  | _ => None
  end.

(** A string with its ASCII letters in lower case. *)
Fixpoint to_lower (s : string) : string :=
  match s with
  | EmptyString => EmptyString
  | String c rest => String (PostService.lower c) (to_lower rest)
  end.

(** A member that encoding/json can store into the struct of the client:
    an "id" that is a string or null, an "exists" that is a boolean or
    null, or a member of another name. *)
Definition well_kinded (m : string * json) : bool :=
  if PostService.names m.1 "id" then
    match m.2 with JString _ | JNull => true | _ => false end
  else if PostService.names m.1 "exists" then
    match m.2 with JBool _ | JNull => true | _ => false end
  else true.

(** Every document of a collection is stored under its own [_id]. *)
Definition keyed_by_id {D : Type} `{Document D} (c : gmap ObjectID D) : Prop :=
  forall id doc, c !! id = Some doc -> doc_id doc = id.

(** The request of the Post Service for [userID] gets to the existence
    check of the User Service, running with [uenv] on [users], with
    [userID] as its path parameter, and the answer of that handler comes
    back.  The client puts [userID] into the URL as it is, so this is how
    the request travels when [userID] is a path segment that a URL carries
    unchanged, as 24 hexadecimal digits are. *)
Definition reaches (penv : PostService.Env) (userID : string)
    (uenv : UserService.Env) (users : gmap ObjectID UserService.User) : Prop :=
  result (PostService.net penv (PostService.exists_url penv userID))
  = Answered (resp (UserService.checkUserExists uenv userID users)).

(** ** Sample identifiers, requests and environments *)

Module Samples.

Definition oid (b0 b1 b2 b3 b4 b5 b6 b7 b8 b9 b10 b11 : N) : ObjectID :=
  (ascii_of_N b0, ascii_of_N b1, ascii_of_N b2, ascii_of_N b3,
   ascii_of_N b4, ascii_of_N b5, ascii_of_N b6, ascii_of_N b7,
   ascii_of_N b8, ascii_of_N b9, ascii_of_N b10, ascii_of_N b11).

(** 65f1a2b3c4d5e6f708192a3b and its two successors *)
Definition alice_id : ObjectID := oid 101 241 162 179 196 213 230 247 8 25 42 59.
Definition post_id : ObjectID := oid 101 241 162 179 196 213 230 247 8 25 42 60.
Definition spare_id : ObjectID := oid 101 241 162 179 196 213 230 247 8 25 42 61.

Definition alice_hex : string := "65f1a2b3c4d5e6f708192a3b".
Definition post_hex : string := "65f1a2b3c4d5e6f708192a3c".

(** The body [{"name":"Alice"}], bound. *)
Definition alice : UserService.User :=
  {| UserService.ID := NilObjectID; UserService.Name := "Alice" |}.

(** The User Service with its store up, and with its store down. *)
Definition user_env : UserService.Env :=
  {| UserService.NewObjectID := alice_id;
     UserService.fault := None;
     UserService.driver_id := spare_id |}.

Definition user_env_down : UserService.Env :=
  {| UserService.NewObjectID := alice_id;
     UserService.fault := Some (StoreError "server selection timeout");
     UserService.driver_id := spare_id |}.

Definition users_with_alice : gmap ObjectID UserService.User :=
  coll (UserService.createUser user_env (inr alice) ∅).

(** A network that answers [r] after [ms] milliseconds, one on which
    every connection is refused, and one that carries the request for
    [userID] to the existence check of the User Service. *)
Definition answering (r : Response) (ms : N) : Transport :=
  fun _ => {| elapsed := ms; result := Answered r |}.

Definition refusing : Transport :=
  fun _ => {| elapsed := 2;
              result := Failed (TransportError "dial tcp: connect: connection refused") |}.

Definition oracle (uenv : UserService.Env) (userID : string)
    (users : gmap ObjectID UserService.User) : Transport :=
  answering (resp (UserService.checkUserExists uenv userID users)) 3.

Definition post_env (net : Transport) : PostService.Env :=
  {| PostService.USER_SERVICE_URL := "";
     PostService.net := net;
     PostService.fault := None;
     PostService.cursor_fault := None;
     PostService.driver_id := post_id |}.

(** The body [{"user_id":"65f1...","title":"T","content":"C"}], bound. *)
Definition a_post : PostService.Post :=
  {| PostService.ID := NilObjectID;
     PostService.UserID := alice_hex;
     PostService.Title := "T";
     PostService.Content := "C" |}.

Definition posts_of_alice : gmap ObjectID PostService.Post :=
  {[ post_id := with_id post_id a_post ]}.

(** A User Service that takes six seconds to answer. *)
Definition slow : Transport :=
  answering {| status := 200; body := H_exists alice_hex true |} 6000.

(** The Post Service behind that network: when the check returns, the
    context of the handler has run out, and the store call fails. *)
Definition post_env_expired : PostService.Env :=
  {| PostService.USER_SERVICE_URL := "";
     PostService.net := slow;
     PostService.fault := Some (StoreError "context deadline exceeded");
     PostService.cursor_fault := None;
     PostService.driver_id := post_id |}.

End Samples.

(** ** Proof steps *)

Ltac unfold_handlers :=
  unfold PostService.getPostsByUserID, PostService.createPost, PostService.deletePost.

(** Evaluation of a handler at a sample request. *)
Ltac run := vm_compute; reflexivity.

(** * Properties *)

(** ** Identifiers and their hexadecimal form *)

Lemma hex_digits_of_byte (b : ascii) :
  fromHexChar (hexdigit (byte_val b / 16)) = Some (byte_val b / 16)%N
  /\ fromHexChar (hexdigit (byte_val b mod 16)) = Some (byte_val b mod 16)%N
  /\ ascii_of_N (byte_val b / 16 * 16 + byte_val b mod 16) = b.
Proof.
  destruct b as [[] [] [] [] [] [] [] []]; vm_compute; auto.
Qed.

Lemma hex_Decode_Encode (l : list ascii) : hex_Decode (hex_Encode l) = inr l.
Proof.
  induction l as [|b l IH]; [reflexivity|].
  destruct (hex_digits_of_byte b) as (Hhi & Hlo & Hb).
  cbn [hex_Encode hex_Decode].
  rewrite Hhi, Hlo, IH, Hb. reflexivity.
Qed.

Lemma length_hex_Encode (l : list ascii) :
  String.length (hex_Encode l) = 2 * length l.
Proof.
  induction l as [|b l IH]; [reflexivity|].
  cbn [hex_Encode String.length length]. rewrite IH. lia.
Qed.

(** Parsing the hex form of an identifier gives the identifier back. *)
Lemma ObjectIDFromHex_Hex (o : ObjectID) : ObjectIDFromHex (Hex o) = inr o.
Proof.
  unfold ObjectIDFromHex, Hex.
  rewrite length_hex_Encode, hex_Decode_Encode.
  destruct o as [[[[[[[[[[[b0 b1] b2] b3] b4] b5] b6] b7] b8] b9] b10] b11].
  reflexivity.
Qed.

(** An identifier that parses has 24 characters. *)
Lemma ObjectIDFromHex_length (s : string) (o : ObjectID) :
  ObjectIDFromHex s = inr o -> String.length s = 24.
Proof.
  unfold ObjectIDFromHex.
  destruct (String.length s =? 24)%nat eqn:E; [|discriminate].
  intros _. by apply Nat.eqb_eq.
Qed.

Lemma hex_Decode_ok (n : nat) (s : string) :
  String.length s = 2 * n -> all_hex s = true ->
  exists bs, hex_Decode s = inr bs /\ length bs = n.
Proof.
  revert s. induction n as [|n IH]; intros s Hlen Hhex.
  - destruct s; [by exists [] | discriminate].
  - destruct s as [|p [|q rest]]; cbn [String.length] in Hlen; try lia.
    cbn [all_hex] in Hhex. cbn [hex_Decode].
    destruct (fromHexChar p) as [a|]; [|discriminate].
    destruct (fromHexChar q) as [b|]; [|discriminate].
    destruct (IH rest) as (bs & -> & Hbs); [lia | done |].
    eexists. split; [reflexivity|]. cbn. by rewrite Hbs.
Qed.

Lemma hex_Decode_inv (n : nat) (s : string) (bs : list ascii) :
  String.length s <= n -> hex_Decode s = inr bs ->
  all_hex s = true /\ String.length s = 2 * length bs.
Proof.
  revert s bs. induction n as [|n IH]; intros s bs Hlen Hdec.
  - destruct s; [|cbn in Hlen; lia]. by injection Hdec as <-.
  - destruct s as [|p [|q rest]].
    + by injection Hdec as <-.
    + cbn in Hdec. destruct (fromHexChar p); discriminate.
    + cbn [hex_Decode] in Hdec. cbn [all_hex].
      destruct (fromHexChar p) as [a|]; [|discriminate].
      destruct (fromHexChar q) as [b|]; [|discriminate].
      destruct (hex_Decode rest) as [e|bs'] eqn:Hrest; [discriminate|].
      injection Hdec as <-.
      destruct (IH rest bs') as [Hhex Hl]; [cbn in Hlen; lia | done |].
      split; [exact Hhex|]. cbn. rewrite Hl. lia.
Qed.

(** The identifiers that parse are the strings of 24 hexadecimal digits. *)
Lemma ObjectIDFromHex_valid (s : string) :
  (exists o, ObjectIDFromHex s = inr o) <-> String.length s = 24 /\ all_hex s = true.
Proof.
  unfold ObjectIDFromHex. split.
  - intros [o Ho].
    destruct (String.length s =? 24)%nat eqn:E; [|discriminate].
    apply Nat.eqb_eq in E. split; [exact E|]. cbn [negb] in Ho.
    destruct (hex_Decode s) as [e|bs] eqn:Hdec; [discriminate|].
    by apply (hex_Decode_inv 24 s bs); [lia|].
  - intros [Hlen Hhex]. rewrite Hlen. cbn [Nat.eqb negb].
    destruct (hex_Decode_ok 12 s Hlen Hhex) as (bs & -> & Hbs).
    do 13 (destruct bs as [|? bs]; try discriminate).
    eexists. reflexivity.
Qed.

(** ** The collection operations *)

Section CollectionFacts.
Context {D : Type} `{Document D}.
Implicit Types (c : gmap ObjectID D) (id : ObjectID).

Lemma CountDocuments_ok fault id c n :
  CountDocuments fault id c = inr n ->
  fault = None /\ n = (match c !! id with Some _ => 1 | None => 0 end)%N.
Proof.
  unfold CountDocuments. destruct fault; [discriminate|].
  intros [= <-]. auto.
Qed.

Lemma DeleteOne_error fault id c e c' :
  DeleteOne fault id c = (inl e, c') -> fault = Some e /\ c' = c.
Proof.
  unfold DeleteOne. destruct fault as [e0|].
  - intros [= -> ->]. auto.
  - destruct (c !! id); discriminate.
Qed.

Lemma DeleteOne_ok fault id c n c' :
  DeleteOne fault id c = (inr n, c') ->
  fault = None /\ c' = delete id c /\ c' !! id = None
  /\ (n = 0%N <-> c !! id = None).
Proof.
  unfold DeleteOne. destruct fault as [e0|]; [discriminate|].
  destruct (c !! id) eqn:E; intros [= <- <-].
  - rewrite lookup_delete_eq. repeat split; try done.
  - rewrite delete_id by done. repeat split; done.
Qed.

Lemma InsertOne_error fault gen doc c e c' :
  InsertOne fault gen doc c = (inl e, c') -> c' = c.
Proof.
  unfold InsertOne. destruct fault as [e0|].
  - by intros [= _ ->].
  - destruct (c !! _); [by intros [= _ ->] | discriminate].
Qed.

Lemma InsertOne_ok fault gen doc c id c' :
  InsertOne fault gen doc c = (inr id, c') ->
  fault = None
  /\ id = (if IsZero (doc_id doc) then gen else doc_id doc)
  /\ c !! id = None
  /\ c' = <[id := with_id id doc]> c.
Proof.
  unfold InsertOne. destruct fault as [e0|]; [discriminate|].
  destruct (c !! _) eqn:E; [discriminate|].
  intros [= <- <-]. auto.
Qed.
End CollectionFacts.

(** ** The User Service *)

(** C7.  An identifier that fails [ObjectIDFromHex] is answered with 400
    and the text of the parse error by the existence check and the delete
    of the User Service and by the delete of the Post Service; none of
    them issues an operation on its collection, which stays as it was. *)
Theorem malformed_identifier_rejected
    (idParam : string) (err : error)
    (uenv : UserService.Env) (users : gmap ObjectID UserService.User)
    (penv : PostService.Env) (posts : gmap ObjectID PostService.Post) :
  ObjectIDFromHex idParam = inl err ->
  UserService.checkUserExists uenv idParam users
    = {| resp := {| status := 400; body := H_error (Error err) |};
         coll := users; ops := [] |}
  /\ UserService.deleteUser uenv idParam users
    = {| resp := {| status := 400; body := H_error (Error err) |};
         coll := users; ops := [] |}
  /\ PostService.deletePost penv idParam posts
    = {| resp := {| status := 400; body := H_error (Error err) |};
         coll := posts; ops := [] |}.
Proof.
  intros Hparse.
  unfold UserService.checkUserExists, UserService.deleteUser, PostService.deletePost.
  rewrite Hparse. auto.
Qed.

(** C5.  For an identifier that parses, when the count of the matching
    documents is 0 the existence check answers 200 with the identifier as
    it was given and exists false, and when the count is at least 1 it
    answers 200 with exists true; the count is 0 exactly when the
    collection has no document with that identifier. *)
Theorem existence_check_answers_count
    (uenv : UserService.Env) (idParam : string) (objID : ObjectID)
    (users : gmap ObjectID UserService.User) (count : N) :
  ObjectIDFromHex idParam = inr objID ->
  CountDocuments (UserService.fault uenv) objID users = inr count ->
  let o := UserService.checkUserExists uenv idParam users in
  (count = 0%N ->
     resp o = {| status := 200; body := H_exists idParam false |})
  /\ ((1 <= count)%N ->
     resp o = {| status := 200; body := H_exists idParam true |})
  /\ (count = 0%N <-> users !! objID = None)
  /\ status (resp o) <> 404
  /\ coll o = users.
Proof.
  intros Hparse Hcount o. subst o.
  unfold UserService.checkUserExists. rewrite Hparse, Hcount. cbn.
  apply CountDocuments_ok in Hcount as [_ Hn].
  repeat split.
  - intros ->. reflexivity.
  - intros Hge. destruct (N.ltb_spec 0 count); [reflexivity | lia].
  - intros ->. destruct (users !! objID); [discriminate | reflexivity].
  - intros Hnone. by rewrite Hnone in Hn.
  - discriminate.
Qed.

(** C10.  After a creation answered with 201, the response carries an
    identifier, and the existence check on that identifier answers 200
    with exists true, on every later state of the collection that still
    holds what the creation left (no deletion in between), when the count
    on the store is answered. *)
Theorem created_user_exists
    (uenv uenv2 : UserService.Env) (bound : error + UserService.User)
    (users users2 : gmap ObjectID UserService.User) :
  UserService.NewObjectID uenv <> NilObjectID ->
  UserService.fault uenv2 = None ->
  let created := UserService.createUser uenv bound users in
  status (resp created) = 201 ->
  coll created ⊆ users2 ->
  exists id : string,
    returned_id (body (resp created)) = Some id
    /\ resp (UserService.checkUserExists uenv2 id users2)
       = {| status := 200; body := H_exists id true |}.
Proof.
  intros Hfresh Hstore created Hcreated Hkept. subst created.
  unfold UserService.createUser in *.
  destruct bound as [err|newUser]; [discriminate|].
  destruct (InsertOne _ _ _ users) as [[err|id] users'] eqn:Hins; [discriminate|].
  apply InsertOne_ok in Hins as (_ & Hid & _ & ->).
  cbn [doc_id UserService.User_Document UserService.ID] in Hid.
  unfold IsZero in Hid. rewrite bool_decide_eq_false_2 in Hid by done. subst id.
  exists (Hex (UserService.NewObjectID uenv)). split; [reflexivity|].
  cbn [coll] in Hkept.
  unfold UserService.checkUserExists.
  rewrite ObjectIDFromHex_Hex, Hstore. cbn [CountDocuments].
  erewrite lookup_weaken; [reflexivity | apply lookup_insert_eq | exact Hkept].
Qed.

(** ** The client of the existence check *)

Lemma Decode_H_error (msg : string) :
  PostService.Decode (H_error msg)
  = ({| PostService.result_ID := ""; PostService.result_Exists := false |}, None).
Proof. reflexivity. Qed.

Lemma Decode_H_exists (id : string) (b : bool) :
  PostService.Decode (H_exists id b)
  = ({| PostService.result_ID := id; PostService.result_Exists := b |}, None).
Proof. reflexivity. Qed.

Example Decode_folded_key :
  PostService.Decode (JSONBody (JObject [("Exists", JBool true); ("ID", JString "x")]))
  = ({| PostService.result_ID := "x"; PostService.result_Exists := true |}, None).
Proof. reflexivity. Qed.

Example Decode_wrong_kind :
  (PostService.Decode (JSONBody (JObject [("exists", JString "yes")]))).2
  = Some (UnmarshalTypeError "exists").
Proof. reflexivity. Qed.

Example Decode_null :
  PostService.Decode (JSONBody JNull)
  = ({| PostService.result_ID := ""; PostService.result_Exists := false |}, None).
Proof. reflexivity. Qed.

Example Decode_not_json :
  (PostService.Decode (OtherBody "<html>not found</html>")).2
  = Some (SyntaxError "invalid character").
Proof. reflexivity. Qed.

(** The default client hands over what the network gives, whenever it
    comes. *)
Lemma http_Get_is_net (net : Transport) (url : string) : http_Get net url = net url.
Proof. reflexivity. Qed.

Lemma checkUserExists_failed (penv : PostService.Env) (userID : string) (e : error) :
  result (PostService.net penv (PostService.exists_url penv userID)) = Failed e ->
  PostService.checkUserExists penv userID = (false, Some e).
Proof.
  intros Hnet. unfold PostService.checkUserExists.
  rewrite http_Get_is_net, Hnet. reflexivity.
Qed.

(** Of an answer only the body is read. *)
Lemma checkUserExists_answered (penv : PostService.Env) (userID : string) (r : Response) :
  result (PostService.net penv (PostService.exists_url penv userID)) = Answered r ->
  PostService.checkUserExists penv userID
  = match (PostService.Decode (body r)).2 with
    | Some e => (false, Some e)
    | None => (PostService.result_Exists (PostService.Decode (body r)).1, None)
    end.
Proof.
  intros Hnet. unfold PostService.checkUserExists.
  rewrite http_Get_is_net, Hnet. by destruct (PostService.Decode (body r)).
Qed.

(** The existence check of the User Service answers 200, 400 or 500, and
    its 400 and 500 carry [gin.H{"error": ...}]. *)
Lemma oracle_answers (uenv : UserService.Env) (idParam : string)
    (users : gmap ObjectID UserService.User) :
  let r := resp (UserService.checkUserExists uenv idParam users) in
  (exists b, r = {| status := 200; body := H_exists idParam b |})
  \/ (exists msg, r = {| status := 400; body := H_error msg |})
  \/ (exists msg, r = {| status := 500; body := H_error msg |}).
Proof.
  unfold UserService.checkUserExists.
  destruct (ObjectIDFromHex idParam) as [err|objID]; cbn.
  - right; left. eauto.
  - destruct (CountDocuments _ _ _) as [err|count]; cbn; eauto.
Qed.

(** ** The Post Service *)

(** C1.  When the existence check returns an error for the user of a
    decoded create request, [createPost] answers 502, issues no operation
    on the post collection and leaves it as it was, so that a later
    listing sees what it would have seen before. *)
Theorem create_unverifiable_is_502
    (penv : PostService.Env) (newPost : PostService.Post)
    (posts : gmap ObjectID PostService.Post) (err : error) :
  (PostService.checkUserExists penv (PostService.UserID newPost)).2 = Some err ->
  PostService.createPost penv (inr newPost) posts
    = {| resp := {| status := 502; body := H_error "cannot connect to user-service" |};
         coll := posts; ops := [] |}
  /\ forall penv2 userID,
       PostService.getPostsByUserID penv2 userID
         (coll (PostService.createPost penv (inr newPost) posts))
       = PostService.getPostsByUserID penv2 userID posts.
Proof.
  intros Herr.
  assert (PostService.createPost penv (inr newPost) posts
    = {| resp := {| status := 502; body := H_error "cannot connect to user-service" |};
         coll := posts; ops := [] |}) as Hout.
  { unfold_handlers.
    destruct (PostService.checkUserExists penv _) as [ex [e|]]; [reflexivity | discriminate]. }
  split; [exact Hout|]. intros penv2 userID. by rewrite Hout.
Qed.

(** C2.  When the existence check reports that the user does not exist,
    [createPost] answers 404 without any operation on the post
    collection.  A document is inserted, and 201 answered, only after the
    check reported that the user exists; then the stored document and the
    answer carry the identifier that [InsertOne] returned. *)
Theorem create_requires_existing_user
    (penv : PostService.Env) (bound : error + PostService.Post)
    (posts : gmap ObjectID PostService.Post) :
  let o := PostService.createPost penv bound posts in
  (forall newPost,
     bound = inr newPost ->
     PostService.checkUserExists penv (PostService.UserID newPost) = (false, None) ->
     o = {| resp := {| status := 404; body := H_error "user does not exist" |};
            coll := posts; ops := [] |})
  /\ (ops o <> [] \/ coll o <> posts \/ status (resp o) = 201 ->
      exists newPost,
        bound = inr newPost
        /\ PostService.checkUserExists penv (PostService.UserID newPost) = (true, None))
  /\ (forall newPost InsertedID posts',
     bound = inr newPost ->
     PostService.checkUserExists penv (PostService.UserID newPost) = (true, None) ->
     InsertOne (PostService.fault penv) (PostService.driver_id penv) newPost posts
       = (inr InsertedID, posts') ->
     let stored := with_id InsertedID newPost in
     o = {| resp := {| status := 201; body := JSONBody (PostService.Post_json stored) |};
            coll := <[InsertedID := stored]> posts; ops := [OpInsertOne] |}
     /\ posts !! InsertedID = None
     /\ coll o !! InsertedID = Some stored
     /\ PostService.ID stored = InsertedID).
Proof.
  intros o. subst o. split; [|split].
  - intros newPost -> Hcheck. unfold_handlers. by rewrite Hcheck.
  - unfold_handlers.
    destruct bound as [err|newPost]; cbn.
    { intros [?|[?|?]]; done. }
    destruct (PostService.checkUserExists penv _) as [[] [e|]] eqn:Hcheck; cbn;
      try (intros [?|[?|?]]; done).
    intros _. by exists newPost.
  - intros newPost InsertedID posts' -> Hcheck Hins stored. subst stored.
    unfold_handlers. rewrite Hcheck, Hins. cbn.
    apply InsertOne_ok in Hins as (_ & _ & Hfree & ->).
    repeat split; [done | apply lookup_insert_eq].
Qed.

(** C3.  The client of the existence check: an answer whose body decodes
    gives the decoded boolean and no error (the body [{id, exists}] gives
    its [exists]); a failed exchange and a body that does not decode give
    an error.  The callers keep the two apart: an error is answered with
    502, a check that reports false with 404. *)
Theorem verification_client_outcomes
    (penv : PostService.Env) (userID : string)
    (posts : gmap ObjectID PostService.Post) (newPost : PostService.Post) :
  let exchange := result (PostService.net penv (PostService.exists_url penv userID)) in
  let check := PostService.checkUserExists penv userID in
  (forall r res,
     exchange = Answered r -> PostService.Decode (body r) = (res, None) ->
     check = (PostService.result_Exists res, None))
  /\ (forall code id b,
     exchange = Answered {| status := code; body := H_exists id b |} ->
     check = (b, None))
  /\ (forall e, exchange = Failed e -> check = (false, Some e))
  /\ (forall r res e,
     exchange = Answered r -> PostService.Decode (body r) = (res, Some e) ->
     check = (false, Some e))
  /\ (forall e,
     check.2 = Some e ->
     status (resp (PostService.getPostsByUserID penv userID posts)) = 502
     /\ (PostService.UserID newPost = userID ->
         status (resp (PostService.createPost penv (inr newPost) posts)) = 502))
  /\ (check = (false, None) ->
     status (resp (PostService.getPostsByUserID penv userID posts)) = 404
     /\ (PostService.UserID newPost = userID ->
         status (resp (PostService.createPost penv (inr newPost) posts)) = 404)).
Proof.
  intros exchange check. subst exchange check.
  split; [|split; [|split; [|split; [|split]]]].
  - intros r res Hnet Hdec.
    rewrite (checkUserExists_answered _ _ _ Hnet), Hdec. reflexivity.
  - intros code id b Hnet.
    rewrite (checkUserExists_answered _ _ _ Hnet). reflexivity.
  - intros e. apply checkUserExists_failed.
  - intros r res e Hnet Hdec.
    rewrite (checkUserExists_answered _ _ _ Hnet), Hdec. reflexivity.
  - intros e Herr. unfold_handlers. split; [|intros ->];
      destruct (PostService.checkUserExists penv userID) as [ex [e'|]];
      first [reflexivity | discriminate].
  - intros Hcheck. unfold_handlers. split; [|intros ->]; by rewrite Hcheck.
Qed.

(** An object without a member named "id" or "exists" leaves the struct
    at its zero value. *)
Lemma decode_members_unknown (ms : list (string * json)) (r : PostService.result_t)
    (saved : option error) :
  Forall (fun m => PostService.names m.1 "id" = false
                   /\ PostService.names m.1 "exists" = false) ms ->
  PostService.decode_members ms r saved = (r, saved).
Proof.
  induction 1 as [|[key v] ms [Hid Hexists] _ IH]; [reflexivity|].
  cbn [PostService.decode_members]. cbn [fst] in Hid, Hexists.
  rewrite Hid, Hexists. exact IH.
Qed.

(** C4.  The client never looks at the status code: two answers with the
    same body give the same result, and an answer whose body is a JSON
    object without the members "id" and "exists" gives (false, no error)
    under every status code.  So when the request reaches the existence
    check of the User Service and that one answers something other than
    200, the answer is a 400 or a 500, the client returns (false, no
    error), and the list and create handlers of the Post Service answer
    404 "user does not exist", without any operation on the post
    collection. *)
Theorem oracle_error_read_as_absent
    (penv : PostService.Env) (userID : string)
    (uenv : UserService.Env) (users : gmap ObjectID UserService.User)
    (posts : gmap ObjectID PostService.Post) (newPost : PostService.Post) :
  let exchange env id := result (PostService.net env (PostService.exists_url env id)) in
  let answer := resp (UserService.checkUserExists uenv userID users) in
  (forall penv' userID' r r',
     exchange penv userID = Answered r -> exchange penv' userID' = Answered r' ->
     body r = body r' ->
     PostService.checkUserExists penv' userID' = PostService.checkUserExists penv userID)
  /\ (forall code ms,
     exchange penv userID = Answered {| status := code; body := JSONBody (JObject ms) |} ->
     Forall (fun m => PostService.names m.1 "id" = false
                      /\ PostService.names m.1 "exists" = false) ms ->
     PostService.checkUserExists penv userID = (false, None))
  /\ (reaches penv userID uenv users ->
     status answer <> 200 ->
     (status answer = 400 \/ status answer = 500)
     /\ PostService.checkUserExists penv userID = (false, None)
     /\ PostService.getPostsByUserID penv userID posts
        = {| resp := {| status := 404; body := H_error "user does not exist" |};
             coll := posts; ops := [] |}
     /\ (PostService.UserID newPost = userID ->
         PostService.createPost penv (inr newPost) posts
         = {| resp := {| status := 404; body := H_error "user does not exist" |};
              coll := posts; ops := [] |})).
Proof.
  intros exchange answer. subst exchange. cbv beta.
  split; [|split].
  - intros penv' userID' r r' Hnet Hnet' Hsame.
    rewrite (checkUserExists_answered _ _ _ Hnet), (checkUserExists_answered _ _ _ Hnet').
    by rewrite Hsame.
  - intros code ms Hnet Hunknown.
    rewrite (checkUserExists_answered _ _ _ Hnet). cbn [body PostService.Decode].
    by rewrite (decode_members_unknown _ _ _ Hunknown).
  - intros Hreach Hstatus. unfold reaches in Hreach. fold answer in Hreach.
    assert (exists msg, body answer = H_error msg
                        /\ (status answer = 400 \/ status answer = 500))
      as (msg & Hbody & Hcode).
    { destruct (oracle_answers uenv userID users) as [(b & Hr)|[(msg & Hr)|(msg & Hr)]];
        fold answer in Hr; rewrite Hr in *; cbn in *; [done | eauto | eauto]. }
    assert (PostService.checkUserExists penv userID = (false, None)) as Hcheck.
    { rewrite (checkUserExists_answered _ _ _ Hreach), Hbody. reflexivity. }
    split; [exact Hcode|]. split; [exact Hcheck|]. split.
    + unfold_handlers. by rewrite Hcheck.
    + intros Huser. unfold_handlers. by rewrite Huser, Hcheck.
Qed.

(** C6.  [getPostsByUserID] asks the existence check before it touches
    the post collection: when the check reports false it answers 404 with
    no operation on the collection, and an operation on the collection
    means the check reported true.  Hence, once the User Service has
    deleted a user, a listing for that user whose check reaches the User
    Service is answered 404, whatever posts are still stored. *)
Theorem list_is_gated
    (penv : PostService.Env) (userID : string)
    (posts : gmap ObjectID PostService.Post) :
  let o := PostService.getPostsByUserID penv userID posts in
  let absent :=
    {| resp := {| status := 404; body := H_error "user does not exist" |};
       coll := posts; ops := [] |} in
  (PostService.checkUserExists penv userID = (false, None) -> o = absent)
  /\ (ops o <> [] -> PostService.checkUserExists penv userID = (true, None))
  /\ (forall uenv1 uenv2 idParam objID users users2,
      ObjectIDFromHex idParam = inr objID ->
      status (resp (UserService.deleteUser uenv1 idParam users)) = 200 ->
      users2 ⊆ coll (UserService.deleteUser uenv1 idParam users) ->
      ObjectIDFromHex userID = inr objID ->
      reaches penv userID uenv2 users2 ->
      o = absent).
Proof.
  intros o absent. subst o absent.
  assert (PostService.checkUserExists penv userID = (false, None) ->
          PostService.getPostsByUserID penv userID posts
          = {| resp := {| status := 404; body := H_error "user does not exist" |};
               coll := posts; ops := [] |}) as Hgate.
  { intros Hcheck. unfold_handlers. by rewrite Hcheck. }
  split; [exact Hgate|]. split.
  - unfold_handlers.
    destruct (PostService.checkUserExists penv userID) as [[] [e|]]; cbn; done.
  - intros uenv1 uenv2 idParam objID users users2 Hparse Hdeleted Hsub Hsame Hreach.
    apply Hgate.
    assert (users2 !! objID = None) as Hgone.
    { eapply lookup_weaken_None; [|exact Hsub].
      unfold UserService.deleteUser in *. rewrite Hparse in *.
      destruct (DeleteOne _ objID users) as [[e|n] users'] eqn:Hdel; [discriminate|].
      apply DeleteOne_ok in Hdel as (_ & _ & Hnone & _).
      by destruct (n =? 0)%N. }
    unfold reaches in Hreach.
    rewrite (checkUserExists_answered _ _ _ Hreach).
    unfold UserService.checkUserExists. rewrite Hsame.
    unfold CountDocuments. rewrite Hgone.
    by destruct (UserService.fault uenv2).
Qed.

(** C9.  [deletePost] does not depend on the User Service.  For an
    identifier that parses and matches no stored post it answers 404 and
    leaves the collection as it was, so a repeated call answers 404 again;
    after a deletion answered with 200 the next call answers 404.  It
    answers 500 exactly when [DeleteOne] returns an error. *)
Theorem delete_post_ungated_and_repeatable
    (penv : PostService.Env) (postID : string)
    (posts : gmap ObjectID PostService.Post) :
  let o := PostService.deletePost penv postID posts in
  (forall penv',
     PostService.fault penv' = PostService.fault penv ->
     PostService.deletePost penv' postID posts = o)
  /\ (forall objID penv2,
     ObjectIDFromHex postID = inr objID ->
     PostService.fault penv = None -> PostService.fault penv2 = None ->
     posts !! objID = None ->
     status (resp o) = 404 /\ coll o = posts
     /\ status (resp (PostService.deletePost penv2 postID (coll o))) = 404)
  /\ (forall penv2 penv3,
     status (resp o) = 200 ->
     PostService.fault penv2 = None -> PostService.fault penv3 = None ->
     let o2 := PostService.deletePost penv2 postID (coll o) in
     status (resp o2) = 404
     /\ status (resp (PostService.deletePost penv3 postID (coll o2))) = 404)
  /\ (status (resp o) = 500 <->
      exists objID e,
        ObjectIDFromHex postID = inr objID
        /\ (DeleteOne (PostService.fault penv) objID posts).1 = inl e).
Proof.
  intros o. subst o.
  assert (forall env objID c,
            ObjectIDFromHex postID = inr objID ->
            PostService.fault env = None -> c !! objID = None ->
            status (resp (PostService.deletePost env postID c)) = 404
            /\ coll (PostService.deletePost env postID c) = c) as Hmiss.
  { intros env objID c Hparse Hstore Hnone. unfold_handlers.
    rewrite Hparse, Hstore. unfold DeleteOne. rewrite Hnone. auto. }
  split; [|split; [|split]].
  - intros penv' Hfault. unfold_handlers. by rewrite Hfault.
  - intros objID penv2 Hparse Hstore Hstore2 Hnone.
    destruct (Hmiss penv objID posts) as [H404 Hsame]; try done.
    rewrite Hsame. repeat split; try done. by apply (Hmiss penv2 objID posts).
  - intros penv2 penv3 Hok Hstore2 Hstore3 o2. subst o2.
    unfold PostService.deletePost in Hok |- *.
    destruct (ObjectIDFromHex postID) as [err|objID] eqn:Hparse; [discriminate|].
    destruct (DeleteOne _ objID posts) as [[e|n] posts'] eqn:Hdel; [discriminate|].
    apply DeleteOne_ok in Hdel as (_ & _ & Hgone & _).
    assert (coll (if (n =? 0)%N
                  then {| resp := {| status := 404; body := H_error "post not found" |};
                          coll := posts'; ops := [OpDeleteOne objID] |}
                  else {| resp := {| status := 200; body := H_message "post deleted" |};
                          coll := posts'; ops := [OpDeleteOne objID] |}) = posts') as ->.
    { by destruct (n =? 0)%N. }
    rewrite Hstore2, Hstore3. unfold DeleteOne. rewrite Hgone. cbn. by rewrite Hgone.
  - unfold PostService.deletePost.
    destruct (ObjectIDFromHex postID) as [err|objID] eqn:Hparse; cbn.
    { split; [discriminate | intros (? & ? & ? & _); discriminate]. }
    destruct (DeleteOne _ objID posts) as [[e|n] posts'] eqn:Hdel; cbn.
    + split; [intros _; exists objID, e; by rewrite Hdel | done].
    + split.
      * by destruct (n =? 0)%N.
      * intros (objID' & e & [= <-] & Herr). rewrite Hdel in Herr. discriminate.
Qed.

(** C8.  The existence check carries no deadline: [http.Get] uses the
    default client, whose [Timeout] is zero, and the context of the
    handler is not handed to it.  When the User Service answers after six
    seconds, [checkUserExists] takes six seconds and returns the decoded
    answer, not an error, so [createPost] does not answer 502; its own
    context has run out by then, the insertion fails, and it answers 500
    with nothing stored.  A client with a [Timeout] of five seconds would
    have failed the exchange. *)
Theorem existence_check_has_no_deadline :
  let penv := Samples.post_env_expired in
  let no_posts : gmap ObjectID PostService.Post := ∅ in
  PostService.checkUserExists_elapsed penv Samples.alice_hex = 6000%N
  /\ PostService.checkUserExists penv Samples.alice_hex = (true, None)
  /\ PostService.createPost penv (inr Samples.a_post) no_posts
     = {| resp := {| status := 500; body := H_error "context deadline exceeded" |};
          coll := no_posts; ops := [OpInsertOne] |}
  /\ Timeout DefaultClient = 0%N
  /\ result (Client_Get {| Timeout := 5000 |} Samples.slow
               (PostService.exists_url penv Samples.alice_hex))
     = Failed DeadlineExceeded.
Proof.
  intros penv no_posts.
  split; [run|]. split; [run|]. split; [reflexivity|]. split; [reflexivity | run].
Qed.

(** ** The properties at the sample requests *)

Lemma malformed_identifier_rejected_at_abc :
  ObjectIDFromHex "abc" = inl ErrInvalidHex
  /\ UserService.deleteUser Samples.user_env "abc" Samples.users_with_alice
     = {| resp := {| status := 400; body := H_error (Error ErrInvalidHex) |};
          coll := Samples.users_with_alice; ops := [] |}.
Proof.
  assert (ObjectIDFromHex "abc" = inl ErrInvalidHex) as Hparse by run.
  split; [exact Hparse|].
  exact (proj1 (proj2 (malformed_identifier_rejected "abc" ErrInvalidHex
                         Samples.user_env Samples.users_with_alice
                         (Samples.post_env Samples.refusing) ∅ Hparse))).
Defined.

Lemma existence_check_answers_count_at_unknown :
  let nobody : gmap ObjectID UserService.User := ∅ in
  ObjectIDFromHex Samples.alice_hex = inr Samples.alice_id
  /\ CountDocuments (UserService.fault Samples.user_env) Samples.alice_id nobody = inr 0%N
  /\ resp (UserService.checkUserExists Samples.user_env Samples.alice_hex nobody)
     = {| status := 200; body := H_exists Samples.alice_hex false |}.
Proof.
  intros nobody.
  assert (ObjectIDFromHex Samples.alice_hex = inr Samples.alice_id) as Hparse by run.
  assert (CountDocuments (UserService.fault Samples.user_env) Samples.alice_id nobody
          = inr 0%N) as Hcount by run.
  split; [exact Hparse|]. split; [exact Hcount|].
  pose proof (existence_check_answers_count Samples.user_env Samples.alice_hex
                Samples.alice_id nobody 0 Hparse Hcount) as Hthm.
  cbv zeta in Hthm. destruct Hthm as (Hzero & _). exact (Hzero (eq_refl 0%N)).
Defined.

Lemma created_user_exists_at_alice :
  let nobody : gmap ObjectID UserService.User := ∅ in
  let created := UserService.createUser Samples.user_env (inr Samples.alice) nobody in
  UserService.NewObjectID Samples.user_env <> NilObjectID
  /\ status (resp created) = 201
  /\ exists id : string,
       returned_id (body (resp created)) = Some id
       /\ resp (UserService.checkUserExists Samples.user_env id Samples.users_with_alice)
          = {| status := 200; body := H_exists id true |}.
Proof.
  intros nobody created.
  assert (UserService.NewObjectID Samples.user_env <> NilObjectID) as Hfresh.
  { intros Heq. vm_compute in Heq. discriminate Heq. }
  assert (UserService.fault Samples.user_env = None) as Hup by run.
  assert (status (resp created) = 201) as Hcreated by run.
  assert (coll created ⊆ Samples.users_with_alice) as Hkept by reflexivity.
  split; [exact Hfresh|]. split; [exact Hcreated|].
  exact (created_user_exists Samples.user_env Samples.user_env (inr Samples.alice)
           nobody Samples.users_with_alice Hfresh Hup Hcreated Hkept).
Defined.

Lemma create_unverifiable_at_refused :
  let penv := Samples.post_env Samples.refusing in
  (PostService.checkUserExists penv (PostService.UserID Samples.a_post)).2
  = Some (TransportError "dial tcp: connect: connection refused")
  /\ PostService.createPost penv (inr Samples.a_post) Samples.posts_of_alice
     = {| resp := {| status := 502; body := H_error "cannot connect to user-service" |};
          coll := Samples.posts_of_alice; ops := [] |}.
Proof.
  intros penv.
  assert ((PostService.checkUserExists penv (PostService.UserID Samples.a_post)).2
          = Some (TransportError "dial tcp: connect: connection refused")) as Herr by run.
  split; [exact Herr|].
  exact (proj1 (create_unverifiable_is_502 penv Samples.a_post Samples.posts_of_alice
                  _ Herr)).
Defined.

Lemma create_requires_existing_user_at_samples :
  let absent := Samples.post_env (Samples.oracle Samples.user_env Samples.alice_hex ∅) in
  let no_posts : gmap ObjectID PostService.Post := ∅ in
  let present :=
    Samples.post_env
      (Samples.oracle Samples.user_env Samples.alice_hex Samples.users_with_alice) in
  let stored := with_id Samples.post_id Samples.a_post in
  PostService.checkUserExists absent Samples.alice_hex = (false, None)
  /\ PostService.createPost absent (inr Samples.a_post) no_posts
     = {| resp := {| status := 404; body := H_error "user does not exist" |};
          coll := no_posts; ops := [] |}
  /\ PostService.checkUserExists present Samples.alice_hex = (true, None)
  /\ PostService.createPost present (inr Samples.a_post) no_posts
     = {| resp := {| status := 201; body := JSONBody (PostService.Post_json stored) |};
          coll := <[Samples.post_id := stored]> no_posts;
          ops := [OpInsertOne] |}.
Proof.
  intros absent no_posts present stored.
  assert (PostService.checkUserExists absent (PostService.UserID Samples.a_post)
          = (false, None)) as Hno by run.
  assert (PostService.checkUserExists present (PostService.UserID Samples.a_post)
          = (true, None)) as Hyes by run.
  assert (InsertOne (PostService.fault present) (PostService.driver_id present)
            Samples.a_post no_posts
          = (inr Samples.post_id, <[Samples.post_id := stored]> no_posts)) as Hins
    by reflexivity.
  split; [exact Hno|]. split; [|split; [exact Hyes|]].
  - pose proof (create_requires_existing_user absent (inr Samples.a_post) no_posts) as Hthm.
    cbv zeta in Hthm. destruct Hthm as (Hgate & _).
    exact (Hgate Samples.a_post (eq_refl _) Hno).
  - pose proof (create_requires_existing_user present (inr Samples.a_post) no_posts) as Hthm.
    cbv zeta in Hthm. destruct Hthm as (_ & _ & Hcreated).
    exact (proj1 (Hcreated Samples.a_post Samples.post_id _ (eq_refl _) Hyes Hins)).
Defined.

Lemma verification_client_outcomes_at_refused :
  let penv := Samples.post_env Samples.refusing in
  let refused := TransportError "dial tcp: connect: connection refused" in
  result (PostService.net penv (PostService.exists_url penv Samples.alice_hex))
  = Failed refused
  /\ PostService.checkUserExists penv Samples.alice_hex = (false, Some refused)
  /\ status (resp (PostService.getPostsByUserID penv Samples.alice_hex
                     Samples.posts_of_alice)) = 502.
Proof.
  intros penv refused.
  assert (result (PostService.net penv (PostService.exists_url penv Samples.alice_hex))
          = Failed refused) as Hnet by run.
  pose proof (verification_client_outcomes penv Samples.alice_hex Samples.posts_of_alice
                Samples.a_post) as Hthm.
  cbv zeta in Hthm. destruct Hthm as (_ & _ & Hfail & _ & Hcaller & _).
  pose proof (Hfail refused Hnet) as Hcheck.
  split; [exact Hnet|]. split; [exact Hcheck|].
  assert ((PostService.checkUserExists penv Samples.alice_hex).2 = Some refused) as Herr.
  { rewrite Hcheck. reflexivity. }
  exact (proj1 (Hcaller refused Herr)).
Defined.

Lemma oracle_error_read_as_absent_at_store_down :
  let penv :=
    Samples.post_env
      (Samples.oracle Samples.user_env_down Samples.alice_hex Samples.users_with_alice) in
  let answer := resp (UserService.checkUserExists Samples.user_env_down Samples.alice_hex
                        Samples.users_with_alice) in
  reaches penv Samples.alice_hex Samples.user_env_down Samples.users_with_alice
  /\ status answer = 500
  /\ Samples.users_with_alice !! Samples.alice_id
     = Some {| UserService.ID := Samples.alice_id; UserService.Name := "Alice" |}
  /\ PostService.checkUserExists penv Samples.alice_hex = (false, None)
  /\ PostService.getPostsByUserID penv Samples.alice_hex Samples.posts_of_alice
     = {| resp := {| status := 404; body := H_error "user does not exist" |};
          coll := Samples.posts_of_alice; ops := [] |}.
Proof.
  intros penv answer.
  assert (reaches penv Samples.alice_hex Samples.user_env_down Samples.users_with_alice)
    as Hreach by reflexivity.
  assert (status answer = 500) as Hcode by run.
  assert (status answer <> 200) as Hnot200.
  { rewrite Hcode. discriminate. }
  pose proof (oracle_error_read_as_absent penv Samples.alice_hex Samples.user_env_down
                Samples.users_with_alice Samples.posts_of_alice Samples.a_post) as Hthm.
  cbv zeta beta in Hthm. destruct Hthm as (_ & _ & Herrors).
  destruct (Herrors Hreach Hnot200) as (_ & Hcheck & Hlist & _).
  split; [exact Hreach|]. split; [exact Hcode|]. split; [run|].
  split; [exact Hcheck | exact Hlist].
Defined.

Lemma list_is_gated_after_deletion :
  let deleted := UserService.deleteUser Samples.user_env Samples.alice_hex
                   Samples.users_with_alice in
  let penv := Samples.post_env (Samples.oracle Samples.user_env Samples.alice_hex (coll deleted)) in
  status (resp deleted) = 200
  /\ reaches penv Samples.alice_hex Samples.user_env (coll deleted)
  /\ PostService.UserID <$> Samples.posts_of_alice !! Samples.post_id = Some Samples.alice_hex
  /\ PostService.getPostsByUserID penv Samples.alice_hex Samples.posts_of_alice
     = {| resp := {| status := 404; body := H_error "user does not exist" |};
          coll := Samples.posts_of_alice; ops := [] |}.
Proof.
  intros deleted penv.
  assert (ObjectIDFromHex Samples.alice_hex = inr Samples.alice_id) as Hparse by run.
  assert (status (resp deleted) = 200) as Hdeleted by run.
  assert (coll deleted ⊆ coll deleted) as Hsub by reflexivity.
  assert (reaches penv Samples.alice_hex Samples.user_env (coll deleted))
    as Hreach by reflexivity.
  split; [exact Hdeleted|]. split; [exact Hreach|]. split; [run|].
  pose proof (list_is_gated penv Samples.alice_hex Samples.posts_of_alice) as Hthm.
  cbv zeta in Hthm. destruct Hthm as (_ & _ & Hgone).
  exact (Hgone Samples.user_env Samples.user_env Samples.alice_hex Samples.alice_id
           Samples.users_with_alice (coll deleted) Hparse Hdeleted Hsub Hparse Hreach).
Defined.

Lemma delete_post_twice :
  let penv := Samples.post_env Samples.refusing in
  let first := PostService.deletePost penv Samples.post_hex Samples.posts_of_alice in
  let second := PostService.deletePost penv Samples.post_hex (coll first) in
  status (resp first) = 200
  /\ status (resp second) = 404
  /\ status (resp (PostService.deletePost penv Samples.post_hex (coll second))) = 404.
Proof.
  intros penv first second.
  assert (status (resp first) = 200) as Hfirst by run.
  assert (PostService.fault penv = None) as Hup by run.
  pose proof (delete_post_ungated_and_repeatable penv Samples.post_hex
                Samples.posts_of_alice) as Hthm.
  cbv zeta in Hthm. destruct Hthm as (_ & _ & Hagain & _).
  split; [exact Hfirst|].
  exact (Hagain penv penv Hfirst Hup Hup).
Defined.

(** * Further properties of the handlers *)

(** ** Identifiers in requests *)

Lemma fromHexChar_digit (c : ascii) :
  match fromHexChar c with
  | Some a => (a < 16)%N /\ hexdigit a = PostService.lower c
  | None => True
  end.
Proof. destruct c as [[] [] [] [] [] [] [] []]; vm_compute; auto. Qed.

Lemma fromHexChar_lower (c : ascii) :
  fromHexChar (PostService.lower c) = fromHexChar c.
Proof. destruct c as [[] [] [] [] [] [] [] []]; reflexivity. Qed.

Lemma byte_of_digits (a b : N) :
  (a < 16)%N -> (b < 16)%N ->
  (byte_val (ascii_of_N (a * 16 + b)) / 16 = a)%N
  /\ (byte_val (ascii_of_N (a * 16 + b)) mod 16 = b)%N.
Proof.
  intros Ha Hb. unfold byte_val. rewrite N_ascii_embedding by lia. split.
  - symmetry. apply (N.div_unique _ 16 a b); lia.
  - symmetry. apply (N.mod_unique _ 16 a b); lia.
Qed.

Lemma length_to_lower (s : string) : String.length (to_lower s) = String.length s.
Proof. induction s as [|c s IH]; [reflexivity|]. cbn. by rewrite IH. Qed.

(** Decoding and encoding again gives the lower-case form. *)
Lemma hex_Encode_Decode (n : nat) (s : string) (bs : list ascii) :
  String.length s <= n -> hex_Decode s = inr bs -> hex_Encode bs = to_lower s.
Proof.
  revert s bs. induction n as [|n IH]; intros s bs Hlen Hdec.
  - destruct s; [|cbn in Hlen; lia]. by injection Hdec as <-.
  - destruct s as [|p [|q rest]].
    + by injection Hdec as <-.
    + cbn in Hdec. destruct (fromHexChar p); discriminate.
    + cbn [hex_Decode] in Hdec.
      pose proof (fromHexChar_digit p) as Hp. pose proof (fromHexChar_digit q) as Hq.
      destruct (fromHexChar p) as [a|]; [|discriminate].
      destruct (fromHexChar q) as [b|]; [|discriminate].
      destruct (hex_Decode rest) as [e|bs'] eqn:Hrest; [discriminate|].
      injection Hdec as <-.
      destruct Hp as [Ha Hp], Hq as [Hb Hq].
      destruct (byte_of_digits a b Ha Hb) as [Hhi Hlo].
      cbn [hex_Encode to_lower]. rewrite Hhi, Hlo, Hp, Hq.
      rewrite (IH rest bs'); [reflexivity | cbn in Hlen; lia | done].
Qed.

(** The lower-case form decodes as the string does; on a failure only the
    byte that the error names may differ. *)
Lemma hex_Decode_to_lower (n : nat) (s : string) :
  String.length s <= n ->
  match hex_Decode s with
  | inr bs => hex_Decode (to_lower s) = inr bs
  | inl _ => exists e, hex_Decode (to_lower s) = inl e
  end.
Proof.
  revert s. induction n as [|n IH]; intros s Hlen.
  - destruct s; [reflexivity | cbn in Hlen; lia].
  - destruct s as [|p [|q rest]]; [reflexivity | |].
    + cbn. rewrite fromHexChar_lower. destruct (fromHexChar p); eauto.
    + cbn [hex_Decode to_lower]. rewrite !fromHexChar_lower.
      destruct (fromHexChar p) as [a|]; [|eauto].
      destruct (fromHexChar q) as [b|]; [|eauto].
      specialize (IH rest). cbn in Hlen.
      destruct (hex_Decode rest) as [e|bs'].
      * destruct IH as [e' ->]; [lia|]. eauto.
      * rewrite IH by lia. reflexivity.
Qed.

Lemma ObjectIDFromHex_to_lower (s : string) :
  match ObjectIDFromHex s with
  | inr o => ObjectIDFromHex (to_lower s) = inr o
  | inl _ => exists e, ObjectIDFromHex (to_lower s) = inl e
  end.
Proof.
  unfold ObjectIDFromHex. rewrite length_to_lower.
  destruct (String.length s =? 24)%nat; cbn [negb]; [|eauto].
  pose proof (hex_Decode_to_lower (String.length s) s (le_n _)) as Hlow.
  destruct (hex_Decode s) as [e|bs].
  - destruct Hlow as [e' ->]. eauto.
  - rewrite Hlow. destruct (oid_of_bytes bs); eauto.
Qed.

Lemma oid_bytes_of_bytes (bs : list ascii) (o : ObjectID) :
  oid_of_bytes bs = Some o -> oid_bytes o = bs.
Proof.
  do 13 (destruct bs as [|? bs]; try discriminate).
  by intros [= <-].
Qed.

(** X1.  An identifier that parses is, up to the case of its letters, the
    hex form of the ObjectID it denotes: the hex form is the identifier in
    lower case, has 24 characters and parses to the same ObjectID. *)
Theorem Hex_is_lower_case_form (s : string) (o : ObjectID) :
  ObjectIDFromHex s = inr o ->
  Hex o = to_lower s
  /\ String.length (Hex o) = 24
  /\ ObjectIDFromHex (to_lower s) = inr o.
Proof.
  intros Hparse.
  pose proof (ObjectIDFromHex_to_lower s) as Hlow. rewrite Hparse in Hlow.
  assert (Hex o = to_lower s) as Hhex.
  { unfold ObjectIDFromHex in Hparse.
    destruct (String.length s =? 24)%nat; [|discriminate]. cbn [negb] in Hparse.
    destruct (hex_Decode s) as [e|bs] eqn:Hdec; [discriminate|].
    destruct (oid_of_bytes bs) as [o'|] eqn:Hbs; [|discriminate].
    injection Hparse as ->. unfold Hex.
    rewrite (oid_bytes_of_bytes _ _ Hbs).
    by apply (hex_Encode_Decode (String.length s)). }
  split; [exact Hhex|]. split; [|exact Hlow].
  rewrite Hhex, length_to_lower. by apply ObjectIDFromHex_length in Hparse.
Qed.

(** X2.  The handlers that take an identifier do not care about the case
    of its letters: with the identifier in lower case each of them gives
    the same status, leaves the same collection and issues the same
    operations. *)
Theorem identifier_case_is_ignored
    (idParam : string)
    (uenv : UserService.Env) (users : gmap ObjectID UserService.User)
    (penv : PostService.Env) (posts : gmap ObjectID PostService.Post) :
  let same {D} (a b : Outcome D) :=
    status (resp a) = status (resp b) /\ coll a = coll b /\ ops a = ops b in
  same (UserService.checkUserExists uenv idParam users)
       (UserService.checkUserExists uenv (to_lower idParam) users)
  /\ same (UserService.deleteUser uenv idParam users)
          (UserService.deleteUser uenv (to_lower idParam) users)
  /\ same (PostService.deletePost penv idParam posts)
          (PostService.deletePost penv (to_lower idParam) posts).
Proof.
  intros same. subst same. cbv beta.
  unfold UserService.checkUserExists, UserService.deleteUser, PostService.deletePost.
  pose proof (ObjectIDFromHex_to_lower idParam) as Hlow.
  destruct (ObjectIDFromHex idParam) as [e|objID].
  - destruct Hlow as [e' ->]. cbn. done.
  - rewrite Hlow. repeat split.
    all: try by destruct (CountDocuments _ _ _).
Qed.

(** X3.  Each handler that takes an identifier answers 400 exactly when
    the identifier is not a string of 24 hexadecimal digits. *)
Theorem bad_request_iff_malformed
    (idParam : string)
    (uenv : UserService.Env) (users : gmap ObjectID UserService.User)
    (penv : PostService.Env) (posts : gmap ObjectID PostService.Post) :
  let malformed := ~ (String.length idParam = 24 /\ all_hex idParam = true) in
  (status (resp (UserService.checkUserExists uenv idParam users)) = 400 <-> malformed)
  /\ (status (resp (UserService.deleteUser uenv idParam users)) = 400 <-> malformed)
  /\ (status (resp (PostService.deletePost penv idParam posts)) = 400 <-> malformed).
Proof.
  intros malformed. subst malformed.
  unfold UserService.checkUserExists, UserService.deleteUser, PostService.deletePost.
  rewrite <- ObjectIDFromHex_valid.
  destruct (ObjectIDFromHex idParam) as [e|objID]; cbn.
  - repeat split; try done; intros _ [o Ho]; discriminate.
  - repeat split; try (intros Hno; exfalso; apply Hno; by exists objID).
    + destruct (CountDocuments _ _ _); discriminate.
    + destruct (DeleteOne _ _ users) as [[e|n] ?]; cbn; [discriminate|].
      destruct (n =? 0)%N; discriminate.
    + destruct (DeleteOne _ _ posts) as [[e|n] ?]; cbn; [discriminate|].
      destruct (n =? 0)%N; discriminate.
Qed.

Lemma Hex_is_lower_case_form_at_upper :
  ObjectIDFromHex "65F1A2B3C4D5E6F708192A3B" = inr Samples.alice_id
  /\ Hex Samples.alice_id = to_lower "65F1A2B3C4D5E6F708192A3B".
Proof.
  assert (ObjectIDFromHex "65F1A2B3C4D5E6F708192A3B" = inr Samples.alice_id) as Hparse by run.
  split; [exact Hparse|].
  exact (proj1 (Hex_is_lower_case_form _ _ Hparse)).
Defined.

(** ** The User Service *)

(** What [Find] with an empty filter returns: the stored users, each
    once. *)
Lemma Find_all_users (users : gmap ObjectID UserService.User) (found : list UserService.User) :
  UserService.Find None users = inr found ->
  (forall u, u ∈ found <-> exists id, users !! id = Some u)
  /\ length found = size users.
Proof.
  intros [= <-]. split.
  - intros u. rewrite list_elem_of_fmap. split.
    + intros ([id u'] & -> & Hin). exists id. by apply elem_of_map_to_list.
    + intros [id Hid]. exists (id, u). split; [done|]. by apply elem_of_map_to_list.
  - by rewrite length_fmap, length_map_to_list.
Qed.

(** X4.  The handlers of the User Service answer with their success
    status, or with one of their error statuses and a body of the form
    [{"error": message}]; no other status is ever sent. *)
Theorem user_service_answers
    (env : UserService.Env) (bound : error + UserService.User) (idParam : string)
    (cursor_fault : option error) (users : gmap ObjectID UserService.User) :
  let fails (r : Response) (codes : list nat) :=
    status r ∈ codes /\ exists msg, body r = H_error msg in
  let created := resp (UserService.createUser env bound users) in
  let deleted := resp (UserService.deleteUser env idParam users) in
  let checked := resp (UserService.checkUserExists env idParam users) in
  let listed := UserService.getAllUsers env cursor_fault users in
  (status created = 201 \/ fails created [400; 500])
  /\ (deleted = {| status := 200; body := H_message "deleted successfully" |}
      \/ fails deleted [400; 404; 500])
  /\ (status checked = 200 \/ fails checked [400; 500])
  /\ (status listed = 200 \/ fails listed [500]).
Proof.
  intros fails created deleted checked listed.
  subst fails created deleted checked listed. cbv beta.
  unfold UserService.createUser, UserService.deleteUser, UserService.checkUserExists,
    UserService.getAllUsers.
  repeat split.
  - destruct bound as [e|u]; cbn; [right; split; [set_solver | eauto]|].
    destruct (InsertOne _ _ _ _) as [[e|id] ?]; cbn; [right | by left].
    split; [set_solver | eauto].
  - destruct (ObjectIDFromHex idParam) as [e|objID]; cbn;
      [right; split; [set_solver | eauto]|].
    destruct (DeleteOne _ _ _) as [[e|n] ?]; cbn; [right; split; [set_solver | eauto]|].
    destruct (n =? 0)%N; cbn; [right; split; [set_solver | eauto] | by left].
  - destruct (ObjectIDFromHex idParam) as [e|objID]; cbn;
      [right; split; [set_solver | eauto]|].
    destruct (CountDocuments _ _ _); cbn; [right; split; [set_solver | eauto] | by left].
  - destruct (UserService.Find _ _) as [e|cursor]; cbn;
      [right; split; [set_solver | eauto]|].
    destruct (UserService.All _ _); cbn; [right; split; [set_solver | eauto] | by left].
Qed.

(** How [createUser], [deleteUser] and [checkUserExists] leave the
    collection. *)
Lemma user_outcomes
    (env : UserService.Env) (bound : error + UserService.User) (idParam : string)
    (users : gmap ObjectID UserService.User) :
  let created := UserService.createUser env bound users in
  let deleted := UserService.deleteUser env idParam users in
  let chosen := if IsZero (UserService.NewObjectID env)
                then UserService.driver_id env else UserService.NewObjectID env in
  ((status (resp created) = 201
    /\ users !! chosen = None
    /\ exists u, bound = inr u
         /\ coll created
            = <[chosen := {| UserService.ID := chosen;
                             UserService.Name := UserService.Name u |}]> users)
   \/ (status (resp created) <> 201 /\ coll created = users))
  /\ ((status (resp deleted) = 200
       /\ exists objID, ObjectIDFromHex idParam = inr objID
            /\ is_Some (users !! objID) /\ coll deleted = delete objID users)
      \/ (status (resp deleted) <> 200 /\ coll deleted = users))
  /\ coll (UserService.checkUserExists env idParam users) = users.
Proof.
  intros created deleted chosen. subst created deleted chosen.
  unfold UserService.createUser, UserService.deleteUser, UserService.checkUserExists.
  split; [|split].
  - destruct bound as [e|u]; cbn; [by right|].
    destruct (InsertOne _ _ _ _) as [[e|id] users'] eqn:Hins; cbn.
    + right. split; [done|]. by apply InsertOne_error in Hins.
    + left. apply InsertOne_ok in Hins as (_ & -> & Hfree & ->). cbn in *.
      split; [done|]. split; [exact Hfree|]. by exists u.
  - destruct (ObjectIDFromHex idParam) as [e|objID]; cbn; [by right|].
    destruct (DeleteOne _ _ _) as [[e|n] users'] eqn:Hdel; cbn.
    + right. split; [done|]. by apply DeleteOne_error in Hdel as [_ ->].
    + apply DeleteOne_ok in Hdel as (_ & -> & _ & Hn).
      destruct (n =? 0)%N eqn:En; cbn.
      * right. split; [done|]. apply N.eqb_eq in En. apply delete_id. by apply Hn.
      * left. split; [done|]. exists objID. split; [done|]. split; [|done].
        apply N.eqb_neq in En. destruct (users !! objID); [done|]. by destruct En; apply Hn.
  - destruct (ObjectIDFromHex idParam) as [e|objID]; cbn; [done|].
    by destruct (CountDocuments _ _ _).
Qed.

(** X5.  The user collection changes only when a creation is answered
    with 201 or a deletion with 200.  A creation adds one document, under
    an identifier that was free and that the server chose (whatever
    identifier the request carried), with the name of the request; a
    deletion removes the document of the identifier and nothing else. *)
Theorem user_collection_changes_only_on_success
    (env : UserService.Env) (bound : error + UserService.User) (idParam : string)
    (users : gmap ObjectID UserService.User) :
  let created := UserService.createUser env bound users in
  let deleted := UserService.deleteUser env idParam users in
  let chosen := if IsZero (UserService.NewObjectID env)
                then UserService.driver_id env else UserService.NewObjectID env in
  ((status (resp created) = 201
    /\ users !! chosen = None
    /\ exists u, bound = inr u
         /\ coll created
            = <[chosen := {| UserService.ID := chosen;
                             UserService.Name := UserService.Name u |}]> users)
   \/ (status (resp created) <> 201 /\ coll created = users))
  /\ ((status (resp deleted) = 200
       /\ exists objID, ObjectIDFromHex idParam = inr objID
            /\ is_Some (users !! objID) /\ coll deleted = delete objID users)
      \/ (status (resp deleted) <> 200 /\ coll deleted = users))
  /\ coll (UserService.checkUserExists env idParam users) = users.
Proof. exact (user_outcomes env bound idParam users). Qed.

(** X6.  After a deletion answered with 200, with the store answering:
    the existence check on the identifier answers 200 with exists false,
    a second deletion answers 404, and the existence check on any other
    identifier answers as it did before. *)
Theorem deleted_user_is_gone
    (env env2 : UserService.Env) (idParam other : string) (objID : ObjectID)
    (users : gmap ObjectID UserService.User) :
  let deleted := UserService.deleteUser env idParam users in
  status (resp deleted) = 200 ->
  UserService.fault env2 = None ->
  ObjectIDFromHex idParam = inr objID ->
  ObjectIDFromHex other <> inr objID ->
  resp (UserService.checkUserExists env2 idParam (coll deleted))
    = {| status := 200; body := H_exists idParam false |}
  /\ status (resp (UserService.deleteUser env2 idParam (coll deleted))) = 404
  /\ resp (UserService.checkUserExists env2 other (coll deleted))
     = resp (UserService.checkUserExists env2 other users).
Proof.
  intros deleted Hok Hup Hparse Hother. subst deleted.
  destruct (user_outcomes env (inl ErrLength) idParam users)
    as (_ & [(_ & objID' & Hparse' & _ & Hcoll)|[Hno _]] & _); [|done].
  rewrite Hparse in Hparse'. injection Hparse' as <-. rewrite Hcoll.
  unfold UserService.checkUserExists, UserService.deleteUser.
  rewrite Hparse, Hup. unfold CountDocuments, DeleteOne.
  rewrite lookup_delete_eq. repeat split.
  destruct (ObjectIDFromHex other) as [e|o]; [done|].
  rewrite lookup_delete_ne; [done|]. intros <-. done.
Qed.

(** X7.  Deleting a user right after its creation, by the identifier the
    creation returned, is answered with 200 and gives back the collection
    as it was before the creation. *)
Theorem create_then_delete_user_restores
    (env env2 : UserService.Env) (bound : error + UserService.User)
    (users : gmap ObjectID UserService.User) :
  let created := UserService.createUser env bound users in
  UserService.NewObjectID env <> NilObjectID ->
  UserService.fault env2 = None ->
  status (resp created) = 201 ->
  exists id,
    returned_id (body (resp created)) = Some id
    /\ status (resp (UserService.deleteUser env2 id (coll created))) = 200
    /\ coll (UserService.deleteUser env2 id (coll created)) = users.
Proof.
  intros created Hfresh Hup Hok. subst created.
  destruct (user_outcomes env bound "" users)
    as ([(_ & Hfree & u & -> & Hcoll)|[Hno _]] & _); [|done].
  unfold IsZero in *. rewrite bool_decide_eq_false_2 in * by done.
  exists (Hex (UserService.NewObjectID env)). rewrite Hcoll.
  split.
  { unfold UserService.createUser in *.
    destruct (InsertOne _ _ _ _) as [[e|id] ?]; [discriminate | reflexivity]. }
  unfold UserService.deleteUser. rewrite ObjectIDFromHex_Hex, Hup.
  unfold DeleteOne. rewrite lookup_insert_eq. cbn.
  split; [done|]. by rewrite delete_insert_id.
Qed.

(** Insertion and deletion keep the documents under their own [_id]. *)
Lemma keyed_by_id_insert {D : Type} `{Document D}
    (c : gmap ObjectID D) (id : ObjectID) (doc : D) :
  doc_id doc = id -> keyed_by_id c -> keyed_by_id (<[id := doc]> c).
Proof.
  intros Hdoc Hc id' doc'. rewrite lookup_insert.
  case_decide as Hid; [by intros [= <-]; subst | apply Hc].
Qed.

Lemma keyed_by_id_delete {D : Type} `{Document D} (c : gmap ObjectID D) (id : ObjectID) :
  keyed_by_id c -> keyed_by_id (delete id c).
Proof.
  intros Hc id' doc'. rewrite lookup_delete.
  case_decide; [done | apply Hc].
Qed.

(** X9.  With the store answering, [getAllUsers] answers 200 with the
    stored users, each of them once and nothing else; for an empty
    collection the body is [null]. *)
Theorem all_users_are_listed
    (env : UserService.Env) (cursor_fault : option error)
    (users : gmap ObjectID UserService.User) :
  UserService.fault env = None -> cursor_fault = None ->
  exists found,
    UserService.getAllUsers env cursor_fault users
    = {| status := 200; body := JSONBody (UserService.Users_json found) |}
    /\ (forall u, u ∈ found <-> exists id, users !! id = Some u)
    /\ length found = size users
    /\ (users = ∅ -> UserService.Users_json found = JNull).
Proof.
  intros Hup ->. unfold UserService.getAllUsers. rewrite Hup. cbn.
  eexists. split; [reflexivity|].
  destruct (Find_all_users users _ eq_refl) as [Hin Hlen].
  split; [exact Hin|]. split; [exact Hlen|].
  intros ->. by rewrite map_to_list_empty.
Qed.

(** X10.  A user that the listing shows can be deleted by the identifier
    the listing shows for it: the deletion answers 200, removes that
    document, and the user is not listed any more. *)
Theorem listed_user_can_be_deleted
    (env : UserService.Env) (users : gmap ObjectID UserService.User)
    (found : list UserService.User) (u : UserService.User) :
  keyed_by_id users ->
  UserService.fault env = None ->
  UserService.Find None users = inr found ->
  u ∈ found ->
  let deleted := UserService.deleteUser env (Hex (UserService.ID u)) users in
  status (resp deleted) = 200
  /\ coll deleted = delete (UserService.ID u) users
  /\ forall found', UserService.Find None (coll deleted) = inr found' -> u ∉ found'.
Proof.
  intros Hkeyed Hup Hfind Hin deleted. subst deleted.
  apply (Find_all_users users found Hfind) in Hin as [id Hid].
  pose proof (Hkeyed id u Hid) as Hkey. cbn in Hkey. subst id.
  unfold UserService.deleteUser. rewrite ObjectIDFromHex_Hex, Hup.
  unfold DeleteOne. rewrite Hid. cbn.
  split; [done|]. split; [done|].
  intros found' Hfind' Hin'.
  apply (Find_all_users _ found' Hfind') in Hin' as [id Hid'].
  pose proof (keyed_by_id_delete users (UserService.ID u) Hkeyed id u Hid') as Hkey.
  cbn in Hkey. subst id. by rewrite lookup_delete_eq in Hid'.
Qed.

(** X11.  After a creation answered with 201 the listing shows the new
    user, with the identifier that the creation returned and the name of
    the request, and every user that was stored before. *)
Theorem created_user_is_listed
    (env env2 : UserService.Env) (newUser : UserService.User)
    (users : gmap ObjectID UserService.User) :
  let created := UserService.createUser env (inr newUser) users in
  UserService.NewObjectID env <> NilObjectID ->
  status (resp created) = 201 ->
  UserService.fault env2 = None ->
  exists found,
    UserService.getAllUsers env2 None (coll created)
    = {| status := 200; body := JSONBody (UserService.Users_json found) |}
    /\ (exists u, u ∈ found
          /\ body (resp created) = JSONBody (UserService.User_json u)
          /\ UserService.Name u = UserService.Name newUser)
    /\ (forall id old, users !! id = Some old -> old ∈ found)
    /\ length found = S (size users).
Proof.
  intros created Hfresh Hok Hup. subst created.
  destruct (user_outcomes env (inr newUser) "" users)
    as ([(_ & Hfree & u & [= <-] & Hcoll)|[Hno _]] & _); [|done].
  unfold IsZero in *. rewrite bool_decide_eq_false_2 in * by done.
  rewrite Hcoll. unfold UserService.getAllUsers. rewrite Hup. cbn.
  eexists. split; [reflexivity|].
  destruct (Find_all_users (<[UserService.NewObjectID env :=
              {| UserService.ID := UserService.NewObjectID env;
                 UserService.Name := UserService.Name newUser |}]> users) _ eq_refl)
    as [Hin Hlen].
  split; [|split].
  - eexists. split; [apply Hin; eexists; apply lookup_insert_eq|]. split; [|done].
    unfold UserService.createUser in *.
    by destruct (InsertOne _ _ _ _) as [[e|id] c'].
  - intros id old Hold. apply Hin. exists id.
    rewrite lookup_insert_ne; [done|]. intros <-. by rewrite Hfree in Hold.
  - rewrite Hlen. by apply map_size_insert_None.
Qed.

(** ** The Post Service *)

(** What [Find] returns for a user: the stored posts of that user. *)
Lemma Find_posts_of_user (userID : string) (posts : gmap ObjectID PostService.Post)
    (found : list PostService.Post) :
  PostService.Find None userID posts = inr found ->
  forall p, p ∈ found <-> PostService.UserID p = userID /\ exists id, posts !! id = Some p.
Proof.
  intros [= <-] p. rewrite list_elem_of_filter, list_elem_of_fmap.
  split; intros [Huser Hin]; (split; [exact Huser|]).
  - destruct Hin as ([id p'] & -> & Hin). exists id. by apply elem_of_map_to_list.
  - destruct Hin as [id Hid]. exists (id, p). split; [done|]. by apply elem_of_map_to_list.
Qed.

(** How [createPost], [deletePost] and [getPostsByUserID] leave the
    collection. *)
Lemma post_outcomes
    (env : PostService.Env) (bound : error + PostService.Post)
    (idParam userID : string) (posts : gmap ObjectID PostService.Post) :
  let created := PostService.createPost env bound posts in
  let deleted := PostService.deletePost env idParam posts in
  ((status (resp created) = 201
    /\ exists p, bound = inr p
         /\ PostService.checkUserExists env (PostService.UserID p) = (true, None)
         /\ let id := if IsZero (PostService.ID p)
                      then PostService.driver_id env else PostService.ID p in
            posts !! id = None
            /\ coll created = <[id := with_id id p]> posts
            /\ body (resp created) = JSONBody (PostService.Post_json (with_id id p)))
   \/ (status (resp created) <> 201 /\ coll created = posts))
  /\ ((status (resp deleted) = 200
       /\ exists objID, ObjectIDFromHex idParam = inr objID
            /\ is_Some (posts !! objID) /\ coll deleted = delete objID posts)
      \/ (status (resp deleted) <> 200 /\ coll deleted = posts))
  /\ coll (PostService.getPostsByUserID env userID posts) = posts.
Proof.
  intros created deleted. subst created deleted. unfold_handlers.
  split; [|split].
  - destruct bound as [e|p]; cbn; [by right|].
    destruct (PostService.checkUserExists env _) as [[] [e|]] eqn:Hcheck; cbn;
      try by right.
    destruct (InsertOne _ _ _ _) as [[e|id] posts'] eqn:Hins; cbn.
    + right. split; [done|]. by apply InsertOne_error in Hins.
    + left. apply InsertOne_ok in Hins as (_ & -> & Hfree & ->). cbn in *.
      split; [done|]. exists p. by rewrite Hcheck.
  - destruct (ObjectIDFromHex idParam) as [e|objID]; cbn; [by right|].
    destruct (DeleteOne _ _ _) as [[e|n] posts'] eqn:Hdel; cbn.
    + right. split; [done|]. by apply DeleteOne_error in Hdel as [_ ->].
    + apply DeleteOne_ok in Hdel as (_ & -> & _ & Hn).
      destruct (n =? 0)%N eqn:En; cbn.
      * right. split; [done|]. apply N.eqb_eq in En. apply delete_id. by apply Hn.
      * left. split; [done|]. exists objID. split; [done|]. split; [|done].
        apply N.eqb_neq in En. destruct (posts !! objID); [done|]. by destruct En; apply Hn.
  - destruct (PostService.checkUserExists env _) as [[] [e|]]; cbn; try done.
    destruct (PostService.Find _ _ _) as [e|cursor]; cbn; [done|].
    by destruct (PostService.All _ _).
Qed.

(** X12.  The handlers of the Post Service answer with their success
    status, or with one of their error statuses and a body of the form
    [{"error": message}]; no other status is ever sent. *)
Theorem post_service_answers
    (env : PostService.Env) (bound : error + PostService.Post)
    (idParam userID : string) (posts : gmap ObjectID PostService.Post) :
  let fails (r : Response) (codes : list nat) :=
    status r ∈ codes /\ exists msg, body r = H_error msg in
  let created := resp (PostService.createPost env bound posts) in
  let deleted := resp (PostService.deletePost env idParam posts) in
  let listed := resp (PostService.getPostsByUserID env userID posts) in
  (status created = 201 \/ fails created [400; 404; 500; 502])
  /\ (deleted = {| status := 200; body := H_message "post deleted" |}
      \/ fails deleted [400; 404; 500])
  /\ (status listed = 200 \/ fails listed [404; 500; 502]).
Proof.
  intros fails created deleted listed. subst fails created deleted listed. cbv beta.
  unfold_handlers. repeat split.
  - destruct bound as [e|p]; cbn; [right; split; [set_solver | eauto]|].
    destruct (PostService.checkUserExists env _) as [[] [e|]]; cbn;
      try (right; split; [set_solver | eauto]).
    destruct (InsertOne _ _ _ _) as [[e|id] ?]; cbn; [right | by left].
    split; [set_solver | eauto].
  - destruct (ObjectIDFromHex idParam) as [e|objID]; cbn;
      [right; split; [set_solver | eauto]|].
    destruct (DeleteOne _ _ _) as [[e|n] ?]; cbn; [right; split; [set_solver | eauto]|].
    destruct (n =? 0)%N; cbn; [right; split; [set_solver | eauto] | by left].
  - destruct (PostService.checkUserExists env _) as [[] [e|]]; cbn;
      try (right; split; [set_solver | eauto]).
    destruct (PostService.Find _ _ _) as [e|cursor]; cbn;
      [right; split; [set_solver | eauto]|].
    destruct (PostService.All _ _); cbn; [right; split; [set_solver | eauto] | by left].
Qed.

(** X13.  The post collection changes only when a creation is answered
    with 201 or a deletion with 200.  A creation comes after a check that
    reported the user as existing and adds one document under an
    identifier that was free, the one the answer carries; a deletion
    removes the document of the identifier and nothing else; a listing
    changes nothing. *)
Theorem post_collection_changes_only_on_success
    (env : PostService.Env) (bound : error + PostService.Post)
    (idParam userID : string) (posts : gmap ObjectID PostService.Post) :
  let created := PostService.createPost env bound posts in
  let deleted := PostService.deletePost env idParam posts in
  ((status (resp created) = 201
    /\ exists p, bound = inr p
         /\ PostService.checkUserExists env (PostService.UserID p) = (true, None)
         /\ let id := if IsZero (PostService.ID p)
                      then PostService.driver_id env else PostService.ID p in
            posts !! id = None
            /\ coll created = <[id := with_id id p]> posts
            /\ body (resp created) = JSONBody (PostService.Post_json (with_id id p)))
   \/ (status (resp created) <> 201 /\ coll created = posts))
  /\ ((status (resp deleted) = 200
       /\ exists objID, ObjectIDFromHex idParam = inr objID
            /\ is_Some (posts !! objID) /\ coll deleted = delete objID posts)
      \/ (status (resp deleted) <> 200 /\ coll deleted = posts))
  /\ coll (PostService.getPostsByUserID env userID posts) = posts.
Proof. exact (post_outcomes env bound idParam userID posts). Qed.

(** X14.  A create request that carries an identifier of its own keeps
    it: for a verified user and with the store answering, the post is
    stored under that identifier when it is free, and the request is
    answered with 500 and changes nothing when a post has it already. *)
Theorem post_identifier_may_come_from_request
    (env : PostService.Env) (newPost : PostService.Post)
    (posts : gmap ObjectID PostService.Post) :
  let o := PostService.createPost env (inr newPost) posts in
  PostService.ID newPost <> NilObjectID ->
  PostService.checkUserExists env (PostService.UserID newPost) = (true, None) ->
  PostService.fault env = None ->
  (posts !! PostService.ID newPost = None ->
     o = {| resp := {| status := 201; body := JSONBody (PostService.Post_json newPost) |};
            coll := <[PostService.ID newPost := newPost]> posts;
            ops := [OpInsertOne] |})
  /\ (is_Some (posts !! PostService.ID newPost) ->
     o = {| resp := {| status := 500; body := H_error (Error DuplicateKey) |};
            coll := posts; ops := [OpInsertOne] |}).
Proof.
  intros o Hid Hcheck Hup. subst o. unfold_handlers.
  rewrite Hcheck, Hup. cbn. unfold InsertOne, IsZero. cbn.
  rewrite bool_decide_eq_false_2 by done.
  split.
  - intros ->. by destruct newPost.
  - intros [p ->]. reflexivity.
Qed.

(** The listing of a verified user when the store answers. *)
Lemma getPostsByUserID_ok
    (env : PostService.Env) (userID : string)
    (posts : gmap ObjectID PostService.Post) :
  PostService.checkUserExists env userID = (true, None) ->
  PostService.fault env = None -> PostService.cursor_fault env = None ->
  exists found,
    PostService.getPostsByUserID env userID posts
    = {| resp := {| status := 200;
                    body := JSONBody (JObject [("posts", PostService.Posts_json found);
                                               ("user_id", JString userID)]) |};
         coll := posts; ops := [OpFind userID; OpAll] |}
    /\ forall p, p ∈ found <->
                 PostService.UserID p = userID /\ exists id, posts !! id = Some p.
Proof.
  intros Hcheck Hup Hcursor. unfold_handlers. rewrite Hcheck, Hup, Hcursor. cbn.
  eexists. split; [reflexivity|]. by apply Find_posts_of_user.
Qed.

(** X15.  For a verified user and with the store answering, the listing
    answers 200 with the identifier of the request and with exactly the
    stored posts whose [user_id] is that identifier. *)
Theorem listing_shows_the_posts_of_the_user
    (env : PostService.Env) (userID : string)
    (posts : gmap ObjectID PostService.Post) :
  PostService.checkUserExists env userID = (true, None) ->
  PostService.fault env = None -> PostService.cursor_fault env = None ->
  exists found,
    PostService.getPostsByUserID env userID posts
    = {| resp := {| status := 200;
                    body := JSONBody (JObject [("posts", PostService.Posts_json found);
                                               ("user_id", JString userID)]) |};
         coll := posts; ops := [OpFind userID; OpAll] |}
    /\ forall p, p ∈ found <->
                 PostService.UserID p = userID /\ exists id, posts !! id = Some p.
Proof. exact (getPostsByUserID_ok env userID posts). Qed.

(** X16.  For a verified user without any stored post the listing answers
    200 with [posts] [null], not 404. *)
Theorem listing_of_user_without_posts
    (env : PostService.Env) (userID : string)
    (posts : gmap ObjectID PostService.Post) :
  PostService.checkUserExists env userID = (true, None) ->
  PostService.fault env = None -> PostService.cursor_fault env = None ->
  (forall id p, posts !! id = Some p -> PostService.UserID p <> userID) ->
  resp (PostService.getPostsByUserID env userID posts)
  = {| status := 200;
       body := JSONBody (JObject [("posts", JNull); ("user_id", JString userID)]) |}.
Proof.
  intros Hcheck Hup Hcursor Hnone.
  destruct (getPostsByUserID_ok env userID posts Hcheck Hup Hcursor) as (found & -> & Hin).
  destruct found as [|p found]; [reflexivity|].
  destruct (proj1 (Hin p)) as [Huser [id Hid]]; [left|].
  by destruct (Hnone id p Hid).
Qed.

(** X17.  After a creation answered with 201, the listing for the user of
    the post (verified, the store answering) shows the post as the
    creation returned it, and every post of that user stored before. *)
Theorem created_post_is_listed
    (env env2 : PostService.Env) (newPost : PostService.Post)
    (posts : gmap ObjectID PostService.Post) :
  let created := PostService.createPost env (inr newPost) posts in
  let userID := PostService.UserID newPost in
  status (resp created) = 201 ->
  PostService.checkUserExists env2 userID = (true, None) ->
  PostService.fault env2 = None -> PostService.cursor_fault env2 = None ->
  exists found,
    body (resp (PostService.getPostsByUserID env2 userID (coll created)))
    = JSONBody (JObject [("posts", PostService.Posts_json found);
                         ("user_id", JString userID)])
    /\ (exists p, p ∈ found
          /\ body (resp created) = JSONBody (PostService.Post_json p)
          /\ PostService.Title p = PostService.Title newPost
          /\ PostService.Content p = PostService.Content newPost)
    /\ (forall id old, posts !! id = Some old -> PostService.UserID old = userID ->
         old ∈ found).
Proof.
  intros created userID Hok Hcheck Hup Hcursor. subst created userID.
  destruct (post_outcomes env (inr newPost) "" "" posts)
    as ([(_ & p & [= <-] & _ & Hfree & Hcoll & Hbody)|[Hno _]] & _); [|done].
  cbv zeta in Hfree, Hcoll, Hbody.
  destruct (getPostsByUserID_ok env2 (PostService.UserID newPost)
              (coll (PostService.createPost env (inr newPost) posts)) Hcheck Hup Hcursor)
    as (found & -> & Hin).
  exists found. split; [reflexivity|]. rewrite Hcoll in Hin. split.
  - eexists. split; [apply Hin; split; [|eexists; apply lookup_insert_eq]; reflexivity|].
    rewrite Hbody. done.
  - intros id old Hold Huser. apply Hin. split; [exact Huser|]. exists id.
    rewrite lookup_insert_ne; [done|]. intros <-. by rewrite Hfree in Hold.
Qed.

(** X18.  Deleting a post right after its creation, by the identifier the
    creation returned, is answered with 200 and gives back the collection
    as it was before the creation. *)
Theorem create_then_delete_post_restores
    (env env2 : PostService.Env) (bound : error + PostService.Post)
    (posts : gmap ObjectID PostService.Post) :
  let created := PostService.createPost env bound posts in
  status (resp created) = 201 ->
  PostService.fault env2 = None ->
  exists id,
    returned_id (body (resp created)) = Some id
    /\ status (resp (PostService.deletePost env2 id (coll created))) = 200
    /\ coll (PostService.deletePost env2 id (coll created)) = posts.
Proof.
  intros created Hok Hup. subst created.
  destruct (post_outcomes env bound "" "" posts)
    as ([(_ & p & -> & _ & Hfree & Hcoll & Hbody)|[Hno _]] & _); [|done].
  cbv zeta in Hfree, Hcoll, Hbody. rewrite Hbody, Hcoll.
  eexists. split; [reflexivity|]. cbn.
  unfold PostService.deletePost. rewrite ObjectIDFromHex_Hex, Hup.
  unfold DeleteOne. rewrite lookup_insert_eq. cbn.
  split; [done|]. by rewrite delete_insert_id.
Qed.

(** ** The two services together *)

(** What the client returns for an identifier that parses, when its
    request reaches the User Service. *)
Lemma client_reads_user_store
    (penv : PostService.Env) (userID : string) (objID : ObjectID)
    (uenv : UserService.Env) (users : gmap ObjectID UserService.User) :
  reaches penv userID uenv users ->
  UserService.fault uenv = None ->
  ObjectIDFromHex userID = inr objID ->
  PostService.checkUserExists penv userID
  = (bool_decide (is_Some (users !! objID)), None).
Proof.
  intros Hreach Hup Hparse. unfold reaches in Hreach.
  rewrite (checkUserExists_answered _ _ _ Hreach).
  unfold UserService.checkUserExists. rewrite Hup, Hparse.
  unfold CountDocuments. by destruct (users !! objID).
Qed.

(** X19.  For an identifier of 24 hexadecimal digits: when the request of
    the client reaches the existence check of the User Service and the
    store of the User Service answers, the client returns no error and
    reports exactly whether the user collection holds a document with
    that identifier. *)
Theorem client_agrees_with_user_store
    (penv : PostService.Env) (userID : string) (objID : ObjectID)
    (uenv : UserService.Env) (users : gmap ObjectID UserService.User) :
  reaches penv userID uenv users ->
  UserService.fault uenv = None ->
  ObjectIDFromHex userID = inr objID ->
  PostService.checkUserExists penv userID
  = (bool_decide (is_Some (users !! objID)), None).
Proof. exact (client_reads_user_store penv userID objID uenv users). Qed.

(** X20.  A post for a user that was just created is accepted: after a
    user creation answered with 201, a create request whose [user_id] is
    the returned identifier, whose check reaches the User Service, with
    both stores answering and the identifier of the post free, is
    answered with 201 and stored with that [user_id]. *)
Theorem post_for_created_user_is_accepted
    (uenv uenv2 : UserService.Env) (bound : error + UserService.User)
    (users : gmap ObjectID UserService.User)
    (penv : PostService.Env) (newPost : PostService.Post)
    (posts : gmap ObjectID PostService.Post) :
  let created := UserService.createUser uenv bound users in
  let id := if IsZero (PostService.ID newPost)
            then PostService.driver_id penv else PostService.ID newPost in
  UserService.NewObjectID uenv <> NilObjectID ->
  status (resp created) = 201 ->
  returned_id (body (resp created)) = Some (PostService.UserID newPost) ->
  reaches penv (PostService.UserID newPost) uenv2 (coll created) ->
  UserService.fault uenv2 = None -> PostService.fault penv = None ->
  posts !! id = None ->
  let o := PostService.createPost penv (inr newPost) posts in
  status (resp o) = 201
  /\ exists stored, coll o !! id = Some stored
       /\ PostService.UserID stored = PostService.UserID newPost.
Proof.
  intros created id Hfresh Hok Hret Hreach Hup Hup' Hfree o. subst created id o.
  destruct (user_outcomes uenv bound "" users)
    as ([(_ & _ & u & -> & Hcoll)|[Hno _]] & _); [|done].
  unfold IsZero in Hcoll. rewrite bool_decide_eq_false_2 in Hcoll by done.
  assert (PostService.UserID newPost = Hex (UserService.NewObjectID uenv)) as Huser.
  { unfold UserService.createUser in Hok, Hret.
    destruct (InsertOne _ _ _ users) as [[e|id] c']; [discriminate|].
    change (Some (Hex (UserService.NewObjectID uenv))
            = Some (PostService.UserID newPost)) in Hret.
    congruence. }
  assert (PostService.checkUserExists penv (PostService.UserID newPost) = (true, None))
    as Hcheck.
  { rewrite Huser in Hreach |- *.
    rewrite (client_reads_user_store penv _ (UserService.NewObjectID uenv) uenv2 _
               Hreach Hup (ObjectIDFromHex_Hex _)).
    rewrite Hcoll, lookup_insert_eq. reflexivity. }
  unfold PostService.createPost. rewrite Hcheck, Hup'. cbn.
  unfold InsertOne. cbn. rewrite Hfree. cbn.
  split; [done|]. eexists. split; [apply lookup_insert_eq | reflexivity].
Qed.

(** ** When the client fails *)

Lemma decode_members_no_error (ms : list (string * json)) (r : PostService.result_t)
    (saved : option error) :
  (PostService.decode_members ms r saved).2 = None
  <-> saved = None /\ forallb well_kinded ms = true.
Proof.
  revert r saved. induction ms as [|[key v] ms IH]; intros r saved.
  - cbn. tauto.
  - cbn [PostService.decode_members forallb]. unfold well_kinded at 1. cbn [fst snd].
    destruct (PostService.names key "id");
      [|destruct (PostService.names key "exists")];
      destruct v; rewrite IH; cbn [andb];
      try tauto; destruct saved; intuition congruence.
Qed.

(** X21.  When the exchange is answered with a body that carries the
    JSON value [v], the client of the existence check returns no error
    exactly when [v] is [null] or an object in which every member named
    "id" is a string or null and every member named "exists" is a boolean
    or null; whenever it returns an error it returns false with it. *)
Theorem json_answer_decodes_exactly_when
    (penv : PostService.Env) (userID : string) (r : Response) (v : json) :
  result (PostService.net penv (PostService.exists_url penv userID)) = Answered r ->
  body r = JSONBody v ->
  let check := PostService.checkUserExists penv userID in
  ((check.2 = None) <->
   (v = JNull \/ exists ms, v = JObject ms /\ forallb well_kinded ms = true))
  /\ (check.2 = None \/ check.1 = false).
Proof.
  intros Hnet Hbody check. subst check.
  rewrite (checkUserExists_answered _ _ _ Hnet), Hbody.
  destruct v as [| | | | |ms]; cbn;
    try (split; [|by right]; split; [done|];
         intros [?|(ms' & ? & _)]; discriminate).
  - split; [|by left]. split; [by left | done].
  - pose proof (decode_members_no_error ms
                  {| PostService.result_ID := ""; PostService.result_Exists := false |}
                  None) as Hiff.
    destruct (PostService.decode_members ms _ None) as [res [e|]]; cbn in *.
    + split; [|by right]. split; [done|].
      intros [?|(ms' & [= <-] & Hkinds)]; [discriminate|].
      by apply (proj2 Hiff (conj eq_refl Hkinds)).
    + split; [|by left]. split; [intros _ | done].
      right. exists ms. split; [done|]. by apply Hiff.
Qed.

(** ** The further properties at the sample requests *)

Lemma users_with_alice_keyed : keyed_by_id Samples.users_with_alice.
Proof.
  change Samples.users_with_alice
    with (<[Samples.alice_id := {| UserService.ID := Samples.alice_id;
                                   UserService.Name := "Alice" |}]>
            (∅ : gmap ObjectID UserService.User)).
  apply keyed_by_id_insert; [reflexivity|].
  intros id doc Hdoc. by rewrite lookup_empty in Hdoc.
Qed.

Lemma deleted_user_is_gone_at_alice :
  let deleted := UserService.deleteUser Samples.user_env Samples.alice_hex
                   Samples.users_with_alice in
  status (resp deleted) = 200
  /\ resp (UserService.checkUserExists Samples.user_env Samples.alice_hex (coll deleted))
     = {| status := 200; body := H_exists Samples.alice_hex false |}
  /\ status (resp (UserService.deleteUser Samples.user_env Samples.alice_hex (coll deleted)))
     = 404.
Proof.
  intros deleted.
  assert (status (resp deleted) = 200) as Hok by run.
  assert (UserService.fault Samples.user_env = None) as Hup by reflexivity.
  assert (ObjectIDFromHex Samples.alice_hex = inr Samples.alice_id) as Hparse by run.
  assert (ObjectIDFromHex Samples.post_hex <> inr Samples.alice_id) as Hother.
  { intros Heq. vm_compute in Heq. discriminate Heq. }
  split; [exact Hok|].
  destruct (deleted_user_is_gone Samples.user_env Samples.user_env Samples.alice_hex
              Samples.post_hex Samples.alice_id Samples.users_with_alice
              Hok Hup Hparse Hother) as (Hgone & Hagain & _).
  split; [exact Hgone | exact Hagain].
Defined.

Lemma create_then_delete_user_restores_at_alice :
  let nobody : gmap ObjectID UserService.User := ∅ in
  let created := UserService.createUser Samples.user_env (inr Samples.alice) nobody in
  status (resp created) = 201
  /\ exists id,
       returned_id (body (resp created)) = Some id
       /\ status (resp (UserService.deleteUser Samples.user_env id (coll created))) = 200
       /\ coll (UserService.deleteUser Samples.user_env id (coll created)) = nobody.
Proof.
  intros nobody created.
  assert (UserService.NewObjectID Samples.user_env <> NilObjectID) as Hfresh.
  { intros Heq. vm_compute in Heq. discriminate Heq. }
  assert (UserService.fault Samples.user_env = None) as Hup by reflexivity.
  assert (status (resp created) = 201) as Hok by run.
  split; [exact Hok|].
  exact (create_then_delete_user_restores Samples.user_env Samples.user_env
           (inr Samples.alice) nobody Hfresh Hup Hok).
Defined.

Lemma all_users_are_listed_at_alice :
  UserService.fault Samples.user_env = None
  /\ exists found,
       UserService.getAllUsers Samples.user_env None Samples.users_with_alice
       = {| status := 200; body := JSONBody (UserService.Users_json found) |}
       /\ length found = size Samples.users_with_alice.
Proof.
  split; [reflexivity|].
  destruct (all_users_are_listed Samples.user_env None Samples.users_with_alice
              eq_refl eq_refl) as (found & Hresp & _ & Hlen & _).
  exists found. split; [exact Hresp | exact Hlen].
Defined.

Lemma listed_user_can_be_deleted_at_alice :
  let u := {| UserService.ID := Samples.alice_id; UserService.Name := "Alice" |} in
  Samples.users_with_alice !! Samples.alice_id = Some u
  /\ status (resp (UserService.deleteUser Samples.user_env (Hex (UserService.ID u))
                     Samples.users_with_alice)) = 200.
Proof.
  intros u.
  assert (Samples.users_with_alice !! Samples.alice_id = Some u) as Hstored by run.
  split; [exact Hstored|].
  assert (u ∈ (map_to_list Samples.users_with_alice).*2) as Hin.
  { apply (Find_all_users Samples.users_with_alice _ eq_refl). by exists Samples.alice_id. }
  exact (proj1 (listed_user_can_be_deleted Samples.user_env Samples.users_with_alice
                  _ u users_with_alice_keyed eq_refl eq_refl Hin)).
Defined.

Lemma created_user_is_listed_at_alice :
  let nobody : gmap ObjectID UserService.User := ∅ in
  let created := UserService.createUser Samples.user_env (inr Samples.alice) nobody in
  status (resp created) = 201
  /\ exists found,
       UserService.getAllUsers Samples.user_env None (coll created)
       = {| status := 200; body := JSONBody (UserService.Users_json found) |}
       /\ length found = 1.
Proof.
  intros nobody created.
  assert (UserService.NewObjectID Samples.user_env <> NilObjectID) as Hfresh.
  { intros Heq. vm_compute in Heq. discriminate Heq. }
  assert (status (resp created) = 201) as Hok by run.
  split; [exact Hok|].
  destruct (created_user_is_listed Samples.user_env Samples.user_env Samples.alice nobody
              Hfresh Hok eq_refl) as (found & Hresp & _ & _ & Hlen).
  exists found. split; [exact Hresp|]. rewrite Hlen. reflexivity.
Defined.

Lemma post_identifier_may_come_from_request_at_samples :
  let env := Samples.post_env
               (Samples.oracle Samples.user_env Samples.alice_hex Samples.users_with_alice) in
  let no_posts : gmap ObjectID PostService.Post := ∅ in
  let newPost := with_id Samples.post_id Samples.a_post in
  PostService.ID newPost <> NilObjectID
  /\ status (resp (PostService.createPost env (inr newPost) no_posts)) = 201
  /\ coll (PostService.createPost env (inr newPost) no_posts)
     = <[Samples.post_id := newPost]> no_posts
  /\ PostService.createPost env (inr newPost) Samples.posts_of_alice
     = {| resp := {| status := 500; body := H_error (Error DuplicateKey) |};
          coll := Samples.posts_of_alice; ops := [OpInsertOne] |}.
Proof.
  intros env no_posts newPost.
  assert (PostService.ID newPost <> NilObjectID) as Hid.
  { intros Heq. vm_compute in Heq. discriminate Heq. }
  assert (PostService.checkUserExists env (PostService.UserID newPost) = (true, None))
    as Hcheck by run.
  assert (PostService.fault env = None) as Hup by reflexivity.
  assert (no_posts !! PostService.ID newPost = None) as Hfree by apply lookup_empty.
  assert (is_Some (Samples.posts_of_alice !! PostService.ID newPost)) as Htaken.
  { exists newPost. apply lookup_singleton_eq. }
  pose proof (post_identifier_may_come_from_request env newPost no_posts) as Hthm.
  cbv zeta in Hthm. destruct (Hthm Hid Hcheck Hup) as [Hstored _].
  pose proof (post_identifier_may_come_from_request env newPost Samples.posts_of_alice)
    as Hthm'.
  cbv zeta in Hthm'. destruct (Hthm' Hid Hcheck Hup) as [_ Hdup].
  split; [exact Hid|]. rewrite (Hstored Hfree).
  split; [reflexivity|]. split; [reflexivity | exact (Hdup Htaken)].
Defined.

Lemma listing_shows_the_posts_of_the_user_at_alice :
  let env := Samples.post_env
               (Samples.oracle Samples.user_env Samples.alice_hex Samples.users_with_alice) in
  PostService.checkUserExists env Samples.alice_hex = (true, None)
  /\ exists found,
       status (resp (PostService.getPostsByUserID env Samples.alice_hex
                       Samples.posts_of_alice)) = 200
       /\ with_id Samples.post_id Samples.a_post ∈ found
       /\ body (resp (PostService.getPostsByUserID env Samples.alice_hex
                        Samples.posts_of_alice))
          = JSONBody (JObject [("posts", PostService.Posts_json found);
                               ("user_id", JString Samples.alice_hex)]).
Proof.
  intros env.
  assert (PostService.checkUserExists env Samples.alice_hex = (true, None)) as Hcheck by run.
  split; [exact Hcheck|].
  destruct (listing_shows_the_posts_of_the_user env Samples.alice_hex Samples.posts_of_alice
              Hcheck eq_refl eq_refl) as (found & Hresp & Hin).
  exists found. rewrite Hresp. split; [reflexivity|]. split; [|reflexivity].
  apply Hin. split; [reflexivity|]. exists Samples.post_id. apply lookup_singleton_eq.
Defined.

Lemma listing_of_user_without_posts_at_alice :
  let env := Samples.post_env
               (Samples.oracle Samples.user_env Samples.alice_hex Samples.users_with_alice) in
  let no_posts : gmap ObjectID PostService.Post := ∅ in
  PostService.checkUserExists env Samples.alice_hex = (true, None)
  /\ resp (PostService.getPostsByUserID env Samples.alice_hex no_posts)
     = {| status := 200;
          body := JSONBody (JObject [("posts", JNull);
                                     ("user_id", JString Samples.alice_hex)]) |}.
Proof.
  intros env no_posts.
  assert (PostService.checkUserExists env Samples.alice_hex = (true, None)) as Hcheck by run.
  split; [exact Hcheck|].
  apply (listing_of_user_without_posts env Samples.alice_hex no_posts Hcheck eq_refl eq_refl).
  intros id p Hp. unfold no_posts in Hp. by rewrite lookup_empty in Hp.
Defined.

Lemma created_post_is_listed_at_alice :
  let env := Samples.post_env
               (Samples.oracle Samples.user_env Samples.alice_hex Samples.users_with_alice) in
  let no_posts : gmap ObjectID PostService.Post := ∅ in
  let created := PostService.createPost env (inr Samples.a_post) no_posts in
  status (resp created) = 201
  /\ exists found p,
       body (resp (PostService.getPostsByUserID env Samples.alice_hex (coll created)))
       = JSONBody (JObject [("posts", PostService.Posts_json found);
                            ("user_id", JString Samples.alice_hex)])
       /\ p ∈ found
       /\ body (resp created) = JSONBody (PostService.Post_json p).
Proof.
  intros env no_posts created.
  assert (PostService.checkUserExists env (PostService.UserID Samples.a_post)
          = (true, None)) as Hcheck by run.
  assert (status (resp created) = 201) as Hok by run.
  split; [exact Hok|].
  destruct (created_post_is_listed env env Samples.a_post no_posts Hok Hcheck
              eq_refl eq_refl) as (found & Hbody & (p & Hin & Hp & _) & _).
  exists found, p. split; [exact Hbody|]. split; [exact Hin | exact Hp].
Defined.

Lemma create_then_delete_post_restores_at_alice :
  let env := Samples.post_env
               (Samples.oracle Samples.user_env Samples.alice_hex Samples.users_with_alice) in
  let no_posts : gmap ObjectID PostService.Post := ∅ in
  let created := PostService.createPost env (inr Samples.a_post) no_posts in
  status (resp created) = 201
  /\ exists id,
       returned_id (body (resp created)) = Some id
       /\ status (resp (PostService.deletePost env id (coll created))) = 200
       /\ coll (PostService.deletePost env id (coll created)) = no_posts.
Proof.
  intros env no_posts created.
  assert (status (resp created) = 201) as Hok by run.
  split; [exact Hok|].
  exact (create_then_delete_post_restores env env (inr Samples.a_post) no_posts Hok eq_refl).
Defined.

Lemma client_agrees_with_user_store_at_alice :
  let penv := Samples.post_env
                (Samples.oracle Samples.user_env Samples.alice_hex Samples.users_with_alice) in
  reaches penv Samples.alice_hex Samples.user_env Samples.users_with_alice
  /\ ObjectIDFromHex Samples.alice_hex = inr Samples.alice_id
  /\ PostService.checkUserExists penv Samples.alice_hex
     = (bool_decide (is_Some (Samples.users_with_alice !! Samples.alice_id)), None).
Proof.
  intros penv.
  assert (reaches penv Samples.alice_hex Samples.user_env Samples.users_with_alice)
    as Hreach by reflexivity.
  assert (ObjectIDFromHex Samples.alice_hex = inr Samples.alice_id) as Hparse by run.
  split; [exact Hreach|]. split; [exact Hparse|].
  exact (client_agrees_with_user_store penv Samples.alice_hex Samples.alice_id
           Samples.user_env Samples.users_with_alice Hreach eq_refl Hparse).
Defined.

Lemma post_for_created_user_is_accepted_at_alice :
  let nobody : gmap ObjectID UserService.User := ∅ in
  let no_posts : gmap ObjectID PostService.Post := ∅ in
  let created := UserService.createUser Samples.user_env (inr Samples.alice) nobody in
  let penv := Samples.post_env
                (Samples.oracle Samples.user_env Samples.alice_hex (coll created)) in
  status (resp created) = 201
  /\ returned_id (body (resp created)) = Some (PostService.UserID Samples.a_post)
  /\ status (resp (PostService.createPost penv (inr Samples.a_post) no_posts)) = 201.
Proof.
  intros nobody no_posts created penv.
  assert (UserService.NewObjectID Samples.user_env <> NilObjectID) as Hfresh.
  { intros Heq. vm_compute in Heq. discriminate Heq. }
  assert (status (resp created) = 201) as Hok by run.
  assert (returned_id (body (resp created)) = Some (PostService.UserID Samples.a_post))
    as Hret by run.
  assert (reaches penv (PostService.UserID Samples.a_post) Samples.user_env (coll created))
    as Hreach by reflexivity.
  split; [exact Hok|]. split; [exact Hret|].
  pose proof (post_for_created_user_is_accepted Samples.user_env Samples.user_env
                (inr Samples.alice) nobody penv Samples.a_post no_posts) as Hthm.
  cbv zeta in Hthm.
  exact (proj1 (Hthm Hfresh Hok Hret Hreach eq_refl eq_refl (lookup_empty _))).
Defined.

Lemma json_answer_decodes_at_oracle :
  let answer := {| status := 200; body := H_exists Samples.alice_hex true |} in
  let penv := Samples.post_env (Samples.answering answer 3) in
  result (PostService.net penv (PostService.exists_url penv Samples.alice_hex))
  = Answered answer
  /\ (PostService.checkUserExists penv Samples.alice_hex).2 = None.
Proof.
  intros answer penv.
  assert (result (PostService.net penv (PostService.exists_url penv Samples.alice_hex))
          = Answered answer) as Hnet by reflexivity.
  split; [exact Hnet|].
  pose proof (json_answer_decodes_exactly_when penv Samples.alice_hex answer _
                Hnet eq_refl) as Hthm.
  cbv zeta in Hthm. destruct Hthm as [[_ Hback] _].
  apply Hback. right. eexists. split; reflexivity.
Defined.
